(** * Indeed.ca automation extension: service worker and content script

    A shallow embedding of [extension/background/service-worker.js]
    (class [IndeedServiceWorker]) and of the content script that follows
    it (class [IndeedAutomation]), together with the properties of the
    safety gates, the field detector and the fill executor that the
    specification states about them. *)

From Stdlib Require Import ZArith Lia Ascii String DecimalString.
From stdpp Require Import base option list gmap strings.

Set Warnings "-register-all".
Local Open Scope string_scope.
Local Open Scope Z_scope.
Local Open Scope list_scope.

(** ** JavaScript values *)

Module JS.

(** The values that travel through messages, profiles and storage.
    Numbers are the integers the program computes with (counters, ports,
    millisecond clocks); objects are ordered property lists in which the
    last binding of a key wins, as in an object literal. *)
Inductive value : Type :=
  | Undefined
  | Null
  | Bool (b : bool)
  | Num (n : Z)
  | Str (s : string)
  | Obj (props : list (string * value)).

(** ToBoolean, as used by [if (v)], [!v] and [v || d]. *)
Definition truthy (v : value) : bool :=
  match v with
  | Undefined | Null => false
  | Bool b => b
  | Num n => negb (Z.eqb n 0)
  | Str s => negb (String.eqb s "")
  | Obj _ => true
  end.

(** [a || b]. *)
Definition or_else (a b : value) : value := if truthy a then a else b.

Definition Z_to_string (n : Z) : string := NilEmpty.string_of_int (Z.to_int n).

(** ToString, as applied inside a template literal. *)
Definition to_string (v : value) : string :=
  match v with
  | Undefined => "undefined"
  | Null => "null"
  | Bool true => "true"
  | Bool false => "false"
  | Num n => Z_to_string n
  | Str s => s
  | Obj _ => "[object Object]"
  end.

(** [String.prototype.includes]: [sub] occurs in [s] at some position. *)
Fixpoint includes (s sub : string) : bool :=
  String.prefix sub s
  || match s with
     | EmptyString => false
     | String _ rest => includes rest sub
     end.

(** [String.prototype.endsWith]: [sub] is [s] or the end of [s]. *)
Fixpoint endsWith (s sub : string) : bool :=
  String.eqb s sub
  || match s with
     | EmptyString => false
     | String _ rest => endsWith rest sub
     end.

Fixpoint assoc (k : string) (props : list (string * value)) : option value :=
  match props with
  | [] => None
  | (k', v) :: rest =>
      match assoc k rest with
      | Some v' => Some v'
      | None => if String.eqb k k' then Some v else None
      end
  end.

(** Property read [o.k] on a value that is neither [undefined] nor
    [null]; reading a property of those two throws a TypeError, which the
    callers below write out. *)
Definition get (o : value) (k : string) : value :=
  match o with
  | Obj props => default Undefined (assoc k props)
  | _ => Undefined
  end.

(** [a === s] for a string [s]. *)
Definition strict_eq_string (a : value) (s : string) : bool :=
  match a with
  | Str a' => String.eqb a' s
  | _ => false
  end.

Definition lower (c : ascii) : ascii :=
  let n := nat_of_ascii c in
  if (Nat.leb 65 n && Nat.leb n 90)%bool then ascii_of_nat (n + 32) else c.

(** [String.prototype.toLowerCase], on the ASCII letters. *)
Fixpoint toLowerCase (s : string) : string :=
  match s with
  | EmptyString => EmptyString
  | String c rest => String (lower c) (toLowerCase rest)
  end.

(** What [JSON.stringify] followed by [JSON.parse] makes of a value, as
    when a message crosses from one script to another: a property whose
    value is [undefined] is left out. *)
Fixpoint json (v : value) : value :=
  match v with
  | Obj props =>
      Obj ((fix each (l : list (string * value)) : list (string * value) :=
              match l with
              | [] => []
              | (k, Undefined) :: rest => each rest
              | (k, x) :: rest => (k, json x) :: each rest
              end) props)
  | _ => v
  end.

(** The double quote and the line feed, which a literal cannot hold. *)
Definition quote : string := String "034"%char EmptyString.
Definition newline : string := String "010"%char EmptyString.

Fixpoint spread_chars (i : nat) (s : string) : list (string * value) :=
  match s with
  | EmptyString => []
  | String c rest =>
      (Z_to_string (Z.of_nat i), Str (String c EmptyString))
        :: spread_chars (S i) rest
  end.

(** Object spread [{...v}]: own enumerable properties; nothing for
    [undefined], [null], booleans and numbers; indexed characters for a
    string. *)
Definition spread (v : value) : list (string * value) :=
  match v with
  | Obj props => props
  | Str s => spread_chars 0 s
  | _ => []
  end.

End JS.

(** ** Results and the state-and-exception monad

    [async] methods that [await] each other run one after the other; a
    rejected promise behaves as a thrown exception at the [await].  A
    computation takes the state, and returns a value or the thrown
    error's [message] together with the state reached. *)

Inductive result (A : Type) : Type :=
  | Ok (a : A)
  | Throw (message : string).
Arguments Ok {A} a.
Arguments Throw {A} message.

Definition M (S A : Type) : Type := S -> result A * S.

#[global] Instance M_ret {S} : MRet (M S) := fun A a s => (Ok a, s).

#[global] Instance M_bind {S} : MBind (M S) :=
  fun A B k m s =>
    match m s with
    | (Ok a, s') => k a s'
    | (Throw e, s') => (Throw e, s')
    end.

Definition throw {S A} (message : string) : M S A := fun s => (Throw message, s).

(** [try { body } catch (error) { handler(error.message) }]. *)
Definition try_catch {S A} (body : M S A) (handler : string -> M S A) : M S A :=
  fun s =>
    match body s with
    | (Ok a, s') => (Ok a, s')
    | (Throw e, s') => handler e s'
    end.

Definition gets {S A} (f : S -> A) : M S A := fun s => (Ok (f s), s).

Definition modify {S} (f : S -> S) : M S unit := fun s => (Ok tt, f s).

(** ** The user profile, shared by the worker and the content script *)

Record Preferences : Type := {
  autoSubmit : bool;
  requireConfirmation : bool;
  maxApplicationsPerDay : Z
}.

Record Profile : Type := {
  firstName : JS.value;
  lastName : JS.value;
  email : JS.value;
  phone : JS.value;
  location : JS.value;
  workAuthorization : JS.value;
  availableStartDate : JS.value;
  skills : list string;
  resumePath : JS.value;
  preferences : Preferences
}.

(** ** The service worker: [class IndeedServiceWorker] *)

Module ServiceWorker.
Import JS.

(** The [settings] object written on installation. *)
Record Settings : Type := {
  autoSubmitEnabled : bool;
  confirmBeforeSubmit : bool;
  maxDailyApplications : Z;
  companionPort : Z
}.

(** [chrome.storage.sync] and [chrome.storage.local].  The local area is
    one key space; the worker writes three families of keys into it,
    [application_<jobId>_<ms>] (objects), [applications_<date>] (numbers)
    and the two fixed keys [companionStatus] and [companionPort].  No key
    of one family is a key of another (lemma [counterKey_not_recordKey]
    below), so the model keeps one map per family, each under the full
    key the code builds. *)
Record storage : Type := {
  sync_userProfile : option Profile;
  sync_settings : option Settings;
  local_records : gmap string (list (string * value));
  local_counters : gmap string Z;
  local_companionStatus : option bool;
  local_companionPort : option Z
}.

(** A call [notifyContentScript(tabId, action, data)]. *)
Record notification : Type := {
  to_tab : option Z;
  notice : string;
  payload : value
}.

(** The worker object, the storage areas it reads and writes, and the
    two outgoing channels: notifications to content scripts and the URLs
    requested with [fetch], oldest first. *)
Record state : Type := {
  localCompanionUrl : string;
  userProfile : option Profile;
  whitelist : list string;
  store : storage;
  notified : list notification;
  fetched : list string
}.

Definition with_localCompanionUrl (u : string) (s : state) : state :=
  {| localCompanionUrl := u; userProfile := userProfile s;
     whitelist := whitelist s; store := store s;
     notified := notified s; fetched := fetched s |}.

Definition with_userProfile (p : option Profile) (s : state) : state :=
  {| localCompanionUrl := localCompanionUrl s; userProfile := p;
     whitelist := whitelist s; store := store s;
     notified := notified s; fetched := fetched s |}.

Definition with_store (f : storage -> storage) (s : state) : state :=
  {| localCompanionUrl := localCompanionUrl s; userProfile := userProfile s;
     whitelist := whitelist s; store := f (store s);
     notified := notified s; fetched := fetched s |}.

Definition with_notified (n : list notification) (s : state) : state :=
  {| localCompanionUrl := localCompanionUrl s; userProfile := userProfile s;
     whitelist := whitelist s; store := store s;
     notified := n; fetched := fetched s |}.

Definition with_fetched (l : list string) (s : state) : state :=
  {| localCompanionUrl := localCompanionUrl s; userProfile := userProfile s;
     whitelist := whitelist s; store := store s;
     notified := notified s; fetched := l |}.

Definition put_userProfile (p : Profile) (st : storage) : storage :=
  {| sync_userProfile := Some p; sync_settings := sync_settings st;
     local_records := local_records st; local_counters := local_counters st;
     local_companionStatus := local_companionStatus st;
     local_companionPort := local_companionPort st |}.

Definition put_settings (x : Settings) (st : storage) : storage :=
  {| sync_userProfile := sync_userProfile st; sync_settings := Some x;
     local_records := local_records st; local_counters := local_counters st;
     local_companionStatus := local_companionStatus st;
     local_companionPort := local_companionPort st |}.

Definition put_record (k : string) (r : list (string * value)) (st : storage)
  : storage :=
  {| sync_userProfile := sync_userProfile st; sync_settings := sync_settings st;
     local_records := <[k := r]> (local_records st);
     local_counters := local_counters st;
     local_companionStatus := local_companionStatus st;
     local_companionPort := local_companionPort st |}.

Definition put_counter (k : string) (n : Z) (st : storage) : storage :=
  {| sync_userProfile := sync_userProfile st; sync_settings := sync_settings st;
     local_records := local_records st;
     local_counters := <[k := n]> (local_counters st);
     local_companionStatus := local_companionStatus st;
     local_companionPort := local_companionPort st |}.

(** [chrome.storage.local.set({ companionStatus, companionPort })]; a key
    that is not in the object keeps its stored value. *)
Definition put_companion (status : bool) (port : option Z) (st : storage)
  : storage :=
  {| sync_userProfile := sync_userProfile st; sync_settings := sync_settings st;
     local_records := local_records st; local_counters := local_counters st;
     local_companionStatus := Some status;
     local_companionPort :=
       match port with Some p => Some p | None => local_companionPort st end |}.

(** What the world answers to one [fetch]: a response with its [ok]
    flag, or a rejection (network error, or the abort of the timeout). *)
Inductive fetch_outcome : Type :=
  | Responds (ok : bool)
  | Rejects (message : string).

(** The readings of the environment during one call: [Date.now()],
    [new Date().toISOString()], [new Date().toDateString()], and the
    answer of the network to each URL. *)
Record env : Type := {
  now : Z;
  isoString : string;
  dateString : string;
  network : string -> fetch_outcome
}.

(** [constructor()], field initialisation; the storage areas outlive the
    worker object. *)
Definition constructor (st : storage) : state :=
  {| localCompanionUrl := "http://127.0.0.1:8001";
     userProfile := None;
     whitelist := ["ca.indeed.com"; "indeed.ca"];
     store := st;
     notified := [];
     fetched := [] |}.

Definition getDefaultProfile : Profile :=
  {| firstName := Str "";
     lastName := Str "";
     email := Str "";
     phone := Str "";
     location := Str "";
     workAuthorization := Str "";
     availableStartDate := Str "";
     skills := [];
     resumePath := Str "";
     preferences :=
       {| autoSubmit := false;
          requireConfirmation := true;
          maxApplicationsPerDay := 10 |} |}.

Definition getUserProfile : M state Profile :=
  cached ← gets userProfile;
  match cached with
  | Some p => mret p
  | None =>
      result ← gets (fun s => sync_userProfile (store s));
      let p := default getDefaultProfile result in
      modify (with_userProfile (Some p));;
      mret p
  end.

Definition loadUserProfile : M state unit :=
  p ← getUserProfile;
  modify (with_userProfile (Some p)).

(** [notifyContentScript(tabId, action, data)] catches its own errors;
    the call is recorded on the outgoing channel. *)
Definition notifyContentScript (tabId : option Z) (action : string)
    (data : value) : M state unit :=
  modify (fun s =>
    with_notified
      (notified s ++ [{| to_tab := tabId; notice := action; payload := data |}])%list
      s).

Definition recordKey (jobId : value) (ms : Z) : string :=
  "application_" +:+ to_string jobId +:+ "_" +:+ Z_to_string ms.

Definition counterKey (today : string) : string := "applications_" +:+ today.

Definition logApplicationSubmission (e : env) (data : value) : M state unit :=
  let applicationRecord :=
    (spread data
       ++ [("timestamp", Str (isoString e)); ("domain", Str "ca.indeed.com")])%list
  in
  match data with
  | Undefined =>
      throw "Cannot read properties of undefined (reading 'jobId')"
  | Null => throw "Cannot read properties of null (reading 'jobId')"
  | _ =>
      modify (with_store
                (put_record (recordKey (get data "jobId") (now e))
                   applicationRecord));;
      let today := dateString e in
      result ← gets (fun s => local_counters (store s) !! counterKey today);
      let count := default 0 result + 1 in
      modify (with_store (put_counter (counterKey today) count));;
      profile ← getUserProfile;
      if maxApplicationsPerDay (preferences profile) <=? count
      then notifyContentScript None "dailyLimitReached"
             (Obj [("count", Num count)])
      else mret tt
  end.

Definition ports : list Z := [8001; 8002; 8003; 8080].

Definition companionUrl (port : Z) : string :=
  "http://127.0.0.1:" +:+ Z_to_string port.

(** [fetchWithTimeout(url, timeout)]: the request goes out; a rejection
    or the abort at the timeout is rethrown. *)
Definition fetchWithTimeout (e : env) (url : string) : M state bool :=
  modify (fun s => with_fetched (fetched s ++ [url])%list s);;
  match network e url with
  | Responds ok => mret ok
  | Rejects message => throw message
  end.

(** The body of the [for (const port of ports)] loop: [Some b] is
    [return b] from inside the loop, [None] goes on to the next port. *)
Definition tryPort (e : env) (port : Z) : M state (option bool) :=
  try_catch
    (ok ← fetchWithTimeout e (companionUrl port +:+ "/health");
     if ok : bool
     then
       modify (with_localCompanionUrl (companionUrl port));;
       modify (with_store (put_companion true (Some port)));;
       mret (Some true)
     else mret None)
    (fun _ => mret None).

(** The loop, and the code after it once the ports are used up. *)
Fixpoint probe (e : env) (ps : list Z) : M state bool :=
  match ps with
  | [] =>
      modify (with_store (put_companion false None));;
      mret false
  | port :: rest =>
      found ← tryPort e port;
      match found with
      | Some b => mret b
      | None => probe e rest
      end
  end.

Definition checkLocalCompanion (e : env) : M state bool :=
  try_catch (probe e ports)
    (fun _ =>
       modify (with_store (put_companion false None));;
       mret false).

(** [url] is [tab.url]: a string, or [undefined] ([None]) when the tab
    does not expose it. *)
Definition isWhitelistedDomain (s : state) (url : option string) : bool :=
  match url with
  | None => false
  | Some u =>
      if String.eqb u "" then false
      else existsb (fun domain => includes u domain) (whitelist s)
  end.

(** The [chrome.tabs.onUpdated] listener. *)
Definition onUpdated (tabId : Z) (status : value) (url : option string)
  : M state unit :=
  s ← gets id;
  if match status with Str st => String.eqb st "complete" | _ => false end
     && isWhitelistedDomain s url
  then notifyContentScript (Some tabId) "pageReloaded" (Obj [])
  else mret tt.

(** The [chrome.runtime.onInstalled] listener. *)
Definition onInstalled (reason : string) : M state unit :=
  if String.eqb reason "install"
  then modify (with_store (put_settings
         {| autoSubmitEnabled := false;
            confirmBeforeSubmit := true;
            maxDailyApplications := 10;
            companionPort := 8001 |}))
  else mret tt.

(** *** Message handling *)

Record message : Type := {
  action : value;
  data : value
}.

Record sender : Type := {
  tab : value
}.

(** The objects passed to [sendResponse]. *)
Inductive response : Type :=
  | Success
  | SuccessData (data : Profile)
  | SuccessCompanion (companionActive : bool)
  | Failure (error : string).

(** The [success] property of a response. *)
Definition success (r : response) : bool :=
  match r with
  | Failure _ => false
  | _ => true
  end.

(** The worker together with the responses sent on one message channel,
    oldest first.  [sendResponse] is a parameter of [handleMessage] only:
    the methods it calls run on the worker's state and cannot reach the
    channel. *)
Definition channel : Type := state * list response.

Definition lift {A} (m : M state A) : M channel A :=
  fun c => let '(r, s') := m (fst c) in (r, (s', snd c)).

Definition sendResponse (r : response) : M channel unit :=
  modify (fun c : channel => (fst c, snd c ++ [r])%list).

(** [case name:] of the [switch (action)], a strict comparison. *)
Definition is_case (action : value) (name : string) : bool :=
  strict_eq_string action name.

Section methods.

(** The methods whose bodies the properties below do not depend on:
    arbitrary computations on the worker, which may change it and may
    throw. *)
Variables saveUserProfile processJobData processFormFields
          handleFileUpload takeScreenshot openSidePanel
  : value -> M state unit.

(** [handleMessage] from its [try] on, for the [action] and [data] that
    the first statement has taken from the message; the method from its
    first statement on is [onMessage] below. *)
Definition handleMessage (e : env) (message : message) (sender : sender)
  : M channel unit :=
  let action := action message in
  let data := data message in
  try_catch
    (if is_case action "getUserProfile" then
       p ← lift getUserProfile;
       sendResponse (SuccessData p)
     else if is_case action "saveUserProfile" then
       lift (saveUserProfile data);;
       sendResponse Success
     else if is_case action "jobDataExtracted" then
       lift (processJobData data);;
       sendResponse Success
     else if is_case action "formFieldsDetected" then
       lift (processFormFields data);;
       sendResponse Success
     else if is_case action "uploadFile" then
       lift (handleFileUpload data);;
       sendResponse Success
     else if is_case action "takeScreenshot" then
       lift (takeScreenshot data);;
       sendResponse Success
     else if is_case action "applicationSubmitted" then
       lift (logApplicationSubmission e data);;
       sendResponse Success
     else if is_case action "openSidePanel" then
       lift (openSidePanel (tab sender));;
       sendResponse Success
     else if is_case action "checkCompanionStatus" then
       status ← lift (checkLocalCompanion e);
       sendResponse (SuccessCompanion status)
     else
       sendResponse (Failure "Unknown action"))
    (fun error => sendResponse (Failure error)).





End methods.

End ServiceWorker.

(** ** The content script: [class IndeedAutomation] *)

Module ContentScript.

(** *** The page *)

(** An element, with the content attributes and the properties the
    script reads or writes.  [ancestors] lists the tag name and class
    name of the element's ancestors below [document.body], outermost
    first. *)
Record element : Type := {
  tagName : string;
  attributes : list (string * string);
  type : string;
  required : bool;
  value : string;
  options : list (string * string);
  display : string;
  visibility : string;
  offsetParent : bool;
  border : string;
  boxShadow : string;
  ancestors : list (string * string)
}.

Definition set_value (v : string) (e : element) : element :=
  {| tagName := tagName e; attributes := attributes e; type := type e;
     required := required e; value := v; options := options e;
     display := display e; visibility := visibility e;
     offsetParent := offsetParent e; border := border e;
     boxShadow := boxShadow e; ancestors := ancestors e |}.

Definition set_style (b sh : string) (e : element) : element :=
  {| tagName := tagName e; attributes := attributes e; type := type e;
     required := required e; value := value e; options := options e;
     display := display e; visibility := visibility e;
     offsetParent := offsetParent e; border := b;
     boxShadow := sh; ancestors := ancestors e |}.

Fixpoint getAttribute (name : string) (attrs : list (string * string))
  : option string :=
  match attrs with
  | [] => None
  | (k, v) :: rest => if String.eqb k name then Some v else getAttribute name rest
  end.

Definition hasAttribute (e : element) (name : string) : bool :=
  match getAttribute name (attributes e) with Some _ => true | None => false end.

(** The reflecting properties [id], [name] and [className]. *)
Definition prop (e : element) (name : string) : string :=
  default "" (getAttribute name (attributes e)).

(** An attribute test of a selector: [[name*="sub"]] or [[name="val"]]. *)
Inductive attr_test : Type :=
  | Contains (name sub : string)
  | Equals (name val : string).

(** A compound selector: a tag name followed by attribute tests. *)
Record selector : Type := {
  tag : string;
  tests : list attr_test
}.

#[global] Instance attr_test_eq_dec : EqDecision attr_test.
Proof. solve_decision. Defined.

#[global] Instance selector_eq_dec : EqDecision selector.
Proof. solve_decision. Defined.

Definition test_holds (e : element) (t : attr_test) : bool :=
  match t with
  | Contains name sub =>
      match getAttribute name (attributes e) with
      | Some v => negb (String.eqb sub "") && JS.includes v sub
      | None => false
      end
  | Equals name val =>
      match getAttribute name (attributes e) with
      | Some v => String.eqb v val
      | None => false
      end
  end.

Definition matches (e : element) (sel : selector) : bool :=
  String.eqb (tagName e) (tag sel) && forallb (test_holds e) (tests sel).

(** The document: its elements in document order.  An element is known
    by its position. *)
Definition querySelector (doc : list element) (sel : selector) : option nat :=
  fst <$> list_find (fun e => matches e sel) doc.

(** [querySelector] on a selector list [a, b, ...]: the first element in
    document order that matches one of them. *)
Definition querySelectorAny (doc : list element) (sels : list selector)
  : option nat :=
  fst <$> list_find (fun e => existsb (matches e) sels) doc.

Definition isVisible (e : element) : bool :=
  negb (String.eqb (display e) "none")
  && negb (String.eqb (visibility e) "hidden")
  && offsetParent e.

(** *** State of the script *)

(** The object [findField] returns. *)
Record field : Type := {
  field_element : nat;
  field_selector : selector;
  field_type : string;
  field_required : bool
}.

Record JobData : Type := {
  title : JS.value;
  company : JS.value;
  jobId : JS.value
}.

(** A callback waiting in [setTimeout]: the rest of a simulated typing,
    or the check that follows a click on the submit button. *)
Inductive timer : Type :=
  | TypeChar (target : nat) (chars : string)
  | CheckSubmissionResult.

(** What the script does to the world outside its own fields. *)
Inductive effect : Type :=
  | Focus (target : nat)
  | DispatchEvent (target : nat) (event : string)
  | KeyboardEvent (target : nat) (event : string) (key : string)
  | Click (target : nat)
  | SendToBackground (action : string) (data : JS.value).

(** [controls] tells whether the control panel of
    [createAutoFillControls] is in the page; [submitDisabled] and
    [status] are the [disabled] flag of its [#submit-app] button and the
    text and class last written to [#fill-status]. *)
Record state : Type := {
  document : list element;
  bodyText : string;
  controls : bool;
  submitDisabled : bool;
  status : option (string * string);
  formFields : option (list (string * option field));
  userProfile : option Profile;
  jobData : option JobData;
  timers : list timer;
  trace : list effect
}.

Definition with_document (d : list element) (s : state) : state :=
  {| document := d; bodyText := bodyText s; controls := controls s;
     submitDisabled := submitDisabled s; status := status s;
     formFields := formFields s; userProfile := userProfile s;
     jobData := jobData s; timers := timers s; trace := trace s |}.

Definition with_controls (c d : bool) (s : state) : state :=
  {| document := document s; bodyText := bodyText s; controls := c;
     submitDisabled := d; status := status s;
     formFields := formFields s; userProfile := userProfile s;
     jobData := jobData s; timers := timers s; trace := trace s |}.

Definition with_status (x : option (string * string)) (s : state) : state :=
  {| document := document s; bodyText := bodyText s; controls := controls s;
     submitDisabled := submitDisabled s; status := x;
     formFields := formFields s; userProfile := userProfile s;
     jobData := jobData s; timers := timers s; trace := trace s |}.

Definition with_formFields (f : option (list (string * option field)))
    (s : state) : state :=
  {| document := document s; bodyText := bodyText s; controls := controls s;
     submitDisabled := submitDisabled s; status := status s;
     formFields := f; userProfile := userProfile s;
     jobData := jobData s; timers := timers s; trace := trace s |}.

Definition with_timers (t : list timer) (s : state) : state :=
  {| document := document s; bodyText := bodyText s; controls := controls s;
     submitDisabled := submitDisabled s; status := status s;
     formFields := formFields s; userProfile := userProfile s;
     jobData := jobData s; timers := t; trace := trace s |}.

Definition with_trace (t : list effect) (s : state) : state :=
  {| document := document s; bodyText := bodyText s; controls := controls s;
     submitDisabled := submitDisabled s; status := status s;
     formFields := formFields s; userProfile := userProfile s;
     jobData := jobData s; timers := timers s; trace := t |}.

Definition emit (x : effect) : M state unit :=
  modify (fun s => with_trace (trace s ++ [x])%list s).

Definition setTimeout (t : timer) : M state unit :=
  modify (fun s => with_timers (timers s ++ [t])%list s).

Definition update (i : nat) (f : element -> element) : M state unit :=
  modify (fun s => with_document (alter f i (document s)) s).

Definition sendToBackground (action : string) (data : JS.value) : M state unit :=
  emit (SendToBackground action data).

(** [showStatus] writes only when [#fill-status] is in the page. *)
Definition showStatus (message type : string) : M state unit :=
  modify (fun s => if controls s then with_status (Some (message, type)) s else s).

(** *** Field detection *)

Definition input (ts : list attr_test) : selector := {| tag := "input"; tests := ts |}.
Definition select (ts : list attr_test) : selector := {| tag := "select"; tests := ts |}.
Definition textarea (ts : list attr_test) : selector := {| tag := "textarea"; tests := ts |}.
Definition button (ts : list attr_test) : selector := {| tag := "button"; tests := ts |}.

Fixpoint findField (doc : list element) (selectors : list selector)
  : option field :=
  match selectors with
  | [] => None
  | sel :: rest =>
      match querySelector doc sel with
      | Some i =>
          match doc !! i with
          | Some element =>
              if isVisible element
              then Some {| field_element := i;
                           field_selector := sel;
                           field_type :=
                             if String.eqb (type element) ""
                             then tagName element else type element;
                           field_required :=
                             required element || hasAttribute element "required" |}
              else findField doc rest
          | None => findField doc rest
          end
      | None => findField doc rest
      end
  end.

(** The selector lists of [detectFormFields], key by key, in the order
    of the object literal. *)
Definition fieldSelectors : list (string * list selector) :=
  [ ("firstName",
      [ input [Contains "name" "firstName"];
        input [Contains "name" "first_name"];
        input [Contains "id" "firstName"];
        input [Contains "placeholder" "First name"] ]);
    ("lastName",
      [ input [Contains "name" "lastName"];
        input [Contains "name" "last_name"];
        input [Contains "id" "lastName"];
        input [Contains "placeholder" "Last name"] ]);
    ("email",
      [ input [Equals "type" "email"];
        input [Contains "name" "email"];
        input [Contains "id" "email"] ]);
    ("phone",
      [ input [Equals "type" "tel"];
        input [Contains "name" "phone"];
        input [Contains "id" "phone"] ]);
    ("resume",
      [ input [Equals "type" "file"; Contains "accept" "pdf"];
        input [Contains "name" "resume"];
        input [Contains "id" "resume"] ]);
    ("coverLetter",
      [ textarea [Contains "name" "cover"];
        textarea [Contains "id" "cover"];
        textarea [Contains "placeholder" "cover"] ]);
    ("location",
      [ input [Contains "name" "location"];
        input [Contains "name" "city"];
        input [Contains "id" "location"] ]);
    ("workAuth",
      [ select [Contains "name" "work_auth"];
        select [Contains "name" "authorization"];
        input [Contains "name" "authorized"] ]);
    ("startDate",
      [ input [Equals "type" "date"];
        input [Contains "name" "start"];
        select [Contains "name" "start"] ]) ].

(** The [formFields] object for a document. *)
Definition detect (doc : list element) : list (string * option field) :=
  map (fun entry => (fst entry, findField doc (snd entry))) fieldSelectors.

Definition test_text (t : attr_test) : string :=
  match t with
  | Contains name sub => "[" +:+ name +:+ "*=" +:+ JS.quote +:+ sub +:+ JS.quote +:+ "]"
  | Equals name val => "[" +:+ name +:+ "=" +:+ JS.quote +:+ val +:+ JS.quote +:+ "]"
  end.

(** The selector as the source writes it. *)
Definition selector_text (sel : selector) : string :=
  tag sel +:+ String.concat "" (map test_text (tests sel)).

(** The [formFields] object as message data; a DOM element has no own
    enumerable property. *)
Definition fields_value (entries : list (string * option field)) : JS.value :=
  JS.Obj (map (fun entry =>
    (fst entry,
     match snd entry with
     | None => JS.Null
     | Some f =>
         JS.Obj [ ("element", JS.Obj []);
                  ("selector", JS.Str (selector_text (field_selector f)));
                  ("type", JS.Str (field_type f));
                  ("required", JS.Bool (field_required f)) ]
     end)) entries).

Fixpoint forEach {A} (f : A -> M state unit) (l : list A) : M state unit :=
  match l with
  | [] => mret tt
  | x :: rest => f x;; forEach f rest
  end.

Definition highlight (e : element) : element :=
  set_style "2px solid #4CAF50" "0 0 5px rgba(76, 175, 80, 0.5)" e.

Definition highlightDetectedFields : M state unit :=
  ff ← gets formFields;
  match ff with
  | None => throw "Cannot convert undefined or null to object"
  | Some entries =>
      forEach (fun entry : string * option field =>
                 match snd entry with
                 | Some f => update (field_element f) highlight
                 | None => mret tt
                 end) entries
  end.

Definition detectFormFields : M state unit :=
  doc ← gets document;
  let formFields := detect doc in
  modify (with_formFields (Some formFields));;
  highlightDetectedFields;;
  sendToBackground "formFieldsDetected" (fields_value formFields).

(** *** Filling *)

Definition generateCoverLetter : M state string :=
  jd ← gets jobData;
  p ← gets userProfile;
  match jd with
  | None => mret ""
  | Some job =>
      let name (f : Profile -> JS.value) :=
        JS.to_string (match p with Some x => f x | None => JS.Undefined end) in
      mret ("Dear Hiring Manager," +:+ JS.newline +:+ JS.newline
            +:+ "I am writing to express my interest in the "
            +:+ JS.to_string (title job) +:+ " position at "
            +:+ JS.to_string (company job) +:+ ". " +:+ JS.newline +:+ JS.newline
            +:+ "Based on the job description, I believe my experience aligns well with your requirements. I am excited about the opportunity to contribute to your team and would welcome the chance to discuss how my skills can benefit "
            +:+ JS.to_string (company job) +:+ "." +:+ JS.newline +:+ JS.newline
            +:+ "Thank you for your consideration." +:+ JS.newline +:+ JS.newline
            +:+ "Best regards," +:+ JS.newline
            +:+ name firstName +:+ " " +:+ name lastName)
  end.

(** [profile.name], a TypeError when [profile] is [null]. *)
Definition read (f : Profile -> JS.value) (name : string) : M state JS.value :=
  p ← gets userProfile;
  match p with
  | Some profile => mret (f profile)
  | None => throw ("Cannot read properties of null (reading '" +:+ name +:+ "')")
  end.

Definition getFieldValue (fieldKey : string) : M state JS.value :=
  if String.eqb fieldKey "firstName" then read firstName "firstName"
  else if String.eqb fieldKey "lastName" then read lastName "lastName"
  else if String.eqb fieldKey "email" then read email "email"
  else if String.eqb fieldKey "phone" then read phone "phone"
  else if String.eqb fieldKey "location" then read location "location"
  else if String.eqb fieldKey "workAuth" then read workAuthorization "workAuthorization"
  else if String.eqb fieldKey "startDate" then read availableStartDate "availableStartDate"
  else if String.eqb fieldKey "coverLetter" then
    letter ← generateCoverLetter; mret (JS.Str letter)
  else mret (JS.Str "").

Definition replace_spaces (s : string) : string :=
  String.concat "."
    ((fix split (acc s : string) : list string :=
        match s with
        | EmptyString => [acc]
        | String c rest =>
            if Ascii.eqb c " "%char then acc :: split "" rest
            else split (acc +:+ String c EmptyString) rest
        end) "" s).

Definition getElementSelector (e : element) : string :=
  if negb (String.eqb (prop e "id") "") then "#" +:+ prop e "id"
  else if negb (String.eqb (prop e "name") "")
  then "[name=" +:+ JS.quote +:+ prop e "name" +:+ JS.quote +:+ "]"
  else
    String.concat " > "
      (map (fun a : string * string =>
              if String.eqb (snd a) "" then fst a
              else fst a +:+ "." +:+ replace_spaces (snd a))
         (ancestors e ++ [(tagName e, prop e "class")])%list).

(** One run of the closure [typeChar] of [simulateTyping] with [chars]
    still to type: it types the first and leaves the rest to a timer.
    [element.value += chars[index]] is an append to the value as a
    string, which is what the browser makes of it on a text control
    that keeps the text as written ([MoreSpec.accepts] below); a string
    is a sequence of ASCII characters, the units [split('')] gives. *)
Definition typeChar (i : nat) (chars : string) : M state unit :=
  match chars with
  | EmptyString => mret tt
  | String c rest =>
      let key := String c EmptyString in
      update i (fun e => set_value (value e +:+ key) e);;
      emit (KeyboardEvent i "keydown" key);;
      emit (KeyboardEvent i "keypress" key);;
      emit (DispatchEvent i "input");;
      emit (KeyboardEvent i "keyup" key);;
      setTimeout (TypeChar i rest)
  end.

Definition simulateTyping (i : nat) (text : JS.value) : M state unit :=
  match text with
  | JS.Str t => typeChar i t
  | JS.Undefined => throw "Cannot read properties of undefined (reading 'split')"
  | JS.Null => throw "Cannot read properties of null (reading 'split')"
  | _ => throw "text.split is not a function"
  end.

(** [fillField(element, value)] for the element at position [i].  The
    positions in a [formFields] object are those [querySelector] found
    in this document, which neither grows nor shrinks; a position
    outside it has no counterpart in the source. *)
Definition fillField (i : nat) (v : JS.value) : M state unit :=
  doc ← gets document;
  match doc !! i with
  | None => throw "no such element"
  | Some element =>
      if String.eqb (type element) "file" then
        sendToBackground "uploadFile"
          (JS.Obj [ ("selector", JS.Str (getElementSelector element));
                    ("filePath", v) ])
      else
        update i (set_value "");;
        emit (Focus i);;
        (if String.eqb (type element) "select-one" then
           match List.find (fun opt : string * string =>
                              JS.strict_eq_string v (fst opt)
                              || JS.includes (snd opt) (JS.to_string v))
                   (options element) with
           | Some option => update i (set_value (fst option))
           | None => mret tt
           end
         else simulateTyping i v);;
        emit (DispatchEvent i "input");;
        emit (DispatchEvent i "change");;
        emit (DispatchEvent i "blur")
  end.

(** The body of the [forEach] of [executeAutoFill], on the running
    [filledCount] and [errors]. *)
Definition fillEntry (acc : Z * list string) (entry : string * option field)
  : M state (Z * list string) :=
  let filledCount := fst acc in
  let errors := snd acc in
  match snd entry with
  | None => mret acc
  | Some f =>
      try_catch
        (v ← getFieldValue (fst entry);
         if JS.truthy v then
           fillField (field_element f) v;;
           mret (filledCount + 1, errors)
         else mret (filledCount, errors))
        (fun message =>
           mret (filledCount, (errors ++ [fst entry +:+ ": " +:+ message])%list))
  end.

Fixpoint fillEntries (acc : Z * list string)
    (entries : list (string * option field)) : M state (Z * list string) :=
  match entries with
  | [] => mret acc
  | entry :: rest => acc' ← fillEntry acc entry; fillEntries acc' rest
  end.

Definition executeAutoFill : M state unit :=
  ff ← gets formFields;
  p ← gets userProfile;
  match ff, p with
  | Some entries, Some _ =>
      r ← fillEntries (0, []) entries;
      let filledCount := fst r in
      let errors := snd r in
      if (0 <? length errors)%nat then
        showStatus ("Filled " +:+ JS.Z_to_string filledCount +:+ " fields with "
                    +:+ JS.Z_to_string (Z.of_nat (length errors)) +:+ " errors")
          "warning"
      else
        showStatus ("Successfully filled " +:+ JS.Z_to_string filledCount
                    +:+ " fields") "success";;
        s ← gets id;
        if controls s then modify (with_controls true false)
        else throw "Cannot set properties of null (setting 'disabled')"
  | _, _ => showStatus "Missing form fields or user profile" "error"
  end.

Definition createAutoFillControls : M state unit :=
  modify (with_controls true true);;
  modify (with_status (Some ("", ""))).

Definition setupAutoFill : M state unit :=
  p ← gets userProfile;
  match p with
  | None => sendToBackground "getUserProfile" (JS.Obj [])
  | Some _ => createAutoFillControls
  end.

Definition handleApplicationPage : M state unit :=
  detectFormFields;;
  setupAutoFill.

(** *** Submission *)

Definition submitSelectors : list selector :=
  [ button [Equals "type" "submit"];
    input [Equals "type" "submit"];
    button [Contains "id" "submit"];
    button [Contains "class" "submit"] ].

Definition successIndicators : list string :=
  [ "Application submitted"; "Thank you"; "Application received";
    "Successfully submitted" ].

Definition checkSubmissionResult (iso : string) : M state unit :=
  text ← gets bodyText;
  let pageText := JS.toLowerCase text in
  let isSuccess :=
    existsb (fun indicator => JS.includes pageText (JS.toLowerCase indicator))
      successIndicators in
  if isSuccess then
    jd ← gets jobData;
    sendToBackground "applicationSubmitted"
      (JS.Obj [ ("jobId", match jd with
                          | Some job => jobId job
                          | None => JS.Undefined
                          end);
                ("success", JS.Bool true);
                ("timestamp", JS.Str iso) ]);;
    showStatus "Application submitted successfully!" "success"
  else showStatus "Submission status unclear - please verify" "warning".

Definition submitApplication : M state unit :=
  doc ← gets document;
  match querySelectorAny doc submitSelectors with
  | Some submitButton =>
      sendToBackground "takeScreenshot" (JS.Obj [("stage", JS.Str "before_submit")]);;
      emit (Click submitButton);;
      setTimeout CheckSubmissionResult
  | None => showStatus "Submit button not found" "error"
  end.

(** [confirmed] is what the user answers to the [confirm] dialog. *)
Definition confirmAndSubmit (confirmed : bool) : M state unit :=
  if confirmed then submitApplication else mret tt.

End ContentScript.

(** ** More of the service worker *)

Module WorkerMethods.
Import JS ServiceWorker.

Definition saveUserProfile (profile : Profile) : M state unit :=
  modify (with_userProfile (Some profile));;
  modify (with_store (put_userProfile profile)).

(** What the companion answers to a POST: a response with its [ok]
    flag, its [statusText] and what [response.json()] resolves to or
    rejects with; or a rejection of the [fetch] itself. *)
Record reply : Type := {
  ok : bool;
  statusText : string;
  parsed : result value
}.

Inductive post_outcome : Type :=
  | Replies (r : reply)
  | Refuses (message : string).

(** The companion, seen from the worker: the answer to a URL and a
    request body. *)
Definition companion : Type := string -> value -> post_outcome.

(** [fetch(url, { method: 'POST', body: JSON.stringify(body) })]; the
    URL joins the requests recorded in [fetched]. *)
Definition post (c : companion) (url : string) (body : value) : M state reply :=
  modify (fun s => with_fetched (fetched s ++ [url]) s);;
  match c url (json body) with
  | Replies r => mret r
  | Refuses message => throw message
  end.

Definition handleFileUpload (c : companion) (data : value) : M state unit :=
  try_catch
    (match data with
     | Undefined =>
         throw "Cannot read properties of undefined (reading 'filePath')"
     | Null => throw "Cannot read properties of null (reading 'filePath')"
     | _ =>
         url ← gets localCompanionUrl;
         response ← post c (url +:+ "/upload")
                      (Obj [ ("file_path", get data "filePath");
                             ("input_selector", get data "selector") ]);
         if negb (ok response)
         then throw ("Companion upload failed: " +:+ statusText response)
         else
           match parsed response with
           | Ok _ => mret tt
           | Throw message => throw message
           end
     end)
    (fun message =>
       notifyContentScript None "fileUploadFailed"
         (Obj [("error", Str message)])).

Definition takeScreenshot (e : env) (c : companion) (data : value)
  : M state unit :=
  try_catch
    (match data with
     | Undefined =>
         throw "Cannot read properties of undefined (reading 'filename')"
     | Null => throw "Cannot read properties of null (reading 'filename')"
     | _ =>
         url ← gets localCompanionUrl;
         response ← post c (url +:+ "/screenshot")
                      (Obj [ ("filename",
                              or_else (get data "filename")
                                (Str ("screenshot_"
                                      +:+ to_string (get data "stage")
                                      +:+ "_" +:+ Z_to_string (now e)
                                      +:+ ".png"))) ]);
         if ok response
         then
           match parsed response with
           | Ok _ => mret tt
           | Throw message => throw message
           end
         else mret tt
     end)
    (fun _ => mret tt).

(** [Object.entries(v)] of a value that is neither [undefined] nor
    [null]: each own key once, with the value the last binding gives
    it. *)
Definition entries (v : value) : list (string * value) :=
  match v with
  | Obj props =>
      map (fun k => (k, default Undefined (assoc k props)))
        (remove_dups (map fst props))
  | Str s => spread_chars 0 s
  | _ => []
  end.

(** The object [processFormFields] returns. *)
Record Strategy : Type := {
  complexity : string;
  requiresCompanion : bool;
  estimatedTime : Z
}.

Definition processFormFields (formFields : value) : M state Strategy :=
  match formFields with
  | Undefined | Null => throw "Cannot convert undefined or null to object"
  | _ =>
      let fieldCount :=
        Z.of_nat (length (List.filter (fun kv => truthy (snd kv))
                            (entries formFields))) in
      let hasFileUpload :=
        existsb (fun kv => truthy (snd kv)
                           && strict_eq_string (get (snd kv) "type") "file")
          (entries formFields) in
      mret {| complexity := if 5 <? fieldCount then "high" else "low";
              requiresCompanion := hasFileUpload;
              estimatedTime :=
                fieldCount * 2 + (if hasFileUpload then 10 else 0) |}
  end.

Definition jobKey (jobId : value) : string := "job_" +:+ to_string jobId.

(** [processJobData]; a job record is an object and is kept with the
    application records, under its own key [job_<jobId>]. *)
Definition processJobData (e : env) (jobData : value) : M state unit :=
  match jobData with
  | Undefined => throw "Cannot read properties of undefined (reading 'jobId')"
  | Null => throw "Cannot read properties of null (reading 'jobId')"
  | _ =>
      let jobId := or_else (get jobData "jobId") (Str (Z_to_string (now e))) in
      modify (with_store
                (put_record (jobKey jobId)
                   (spread jobData
                      ++ [("timestamp", Str (isoString e));
                          ("status", Str "analyzed")])));;
      if truthy (get jobData "matchScore")
      then notifyContentScript None "jobAnalyzed"
             (Obj [ ("jobId", jobId);
                    ("matchScore", get jobData "matchScore");
                    ("requiredSkills", get jobData "requiredSkills") ])
      else mret tt
  end.

End WorkerMethods.

(** ** More of the content script *)

Module PageMethods.
Import ContentScript.

(** [[a-zA-Z0-9]]. *)
Definition alnum (c : ascii) : bool :=
  let n := nat_of_ascii c in
  (Nat.leb 48 n && Nat.leb n 57) || (Nat.leb 65 n && Nat.leb n 90)
  || (Nat.leb 97 n && Nat.leb n 122).

(** The longest run of [[a-zA-Z0-9]] a string starts with. *)
Fixpoint run (s : string) : string :=
  match s with
  | EmptyString => EmptyString
  | String c rest => if alnum c then String c (run rest) else EmptyString
  end.

(** [url.match(/jk=([a-zA-Z0-9]+)/)]: the leftmost [jk=] that a letter
    or digit follows, and the whole run of letters and digits there. *)
Fixpoint extractJobId (url : string) : option string :=
  match url with
  | EmptyString => None
  | String c rest =>
      if String.prefix "jk=" url
      then
        match run (String.substring 3 (String.length url - 3) url) with
        | EmptyString => extractJobId rest
        | id => Some id
        end
      else extractJobId rest
  end.

Section pages.

(** [handleJobDetailPage] reads the page with selectors this model of
    the document does not have; it is taken as an arbitrary computation
    on the script. *)
Variable handleJobDetailPage : M state unit.

(** [detectPageType] for [window.location.href = url].  The class has
    no method [handleJobListingPage]. *)
Definition detectPageType (url : string) : M state unit :=
  if JS.includes url "/viewjob?" then handleJobDetailPage
  else if JS.includes url "/apply?" then handleApplicationPage
  else if JS.includes url "/jobs?"
  then throw "this.handleJobListingPage is not a function"
  else mret tt.

Definition loadUserProfile : M state unit :=
  sendToBackground "getUserProfile" (JS.Obj []).

Definition injectSidePanel : M state unit :=
  sendToBackground "contentScriptReady" (JS.Obj []).

(** [init()]; [setupEventListeners] registers a message listener and an
    observer and does nothing else. *)
Definition init (url : string) : M state unit :=
  loadUserProfile;;
  injectSidePanel;;
  detectPageType url.

End pages.

(** A callback of [setTimeout] runs; [iso] is what
    [new Date().toISOString()] gives at that time. *)
Definition runTimer (iso : string) (t : timer) : M state unit :=
  match t with
  | TypeChar i chars => typeChar i chars
  | CheckSubmissionResult => checkSubmissionResult iso
  end.

(** The timer that was set first fires. *)
Definition fire (iso : string) : M state unit :=
  pending ← gets timers;
  match pending with
  | [] => mret tt
  | t :: rest => modify (with_timers rest);; runTimer iso t
  end.

(** [n] timers fire, one after the other. *)
Fixpoint settle (iso : string) (n : nat) : M state unit :=
  match n with
  | O => mret tt
  | S k => fire iso;; settle iso k
  end.

End PageMethods.


(** ** Vocabulary of the properties *)

Module Spec.
Import JS ServiceWorker.

(** The value [getUserProfile] resolves to in a state: the cached
    profile, else the stored one, else the default. *)
Definition effectiveProfile (s : state) : Profile :=
  match userProfile s with
  | Some p => p
  | None => default getDefaultProfile (sync_userProfile (store s))
  end.

Definition dailyMaximum (s : state) : Z :=
  maxApplicationsPerDay (preferences (effectiveProfile s)).

(** The per-day submission counter, as [logApplicationSubmission] reads
    it: a missing entry counts as 0. *)
Definition quotaCounter (s : state) (today : string) : Z :=
  default 0 (local_counters (store s) !! counterKey today).

(** A sequence of [applicationSubmitted] messages, each logged at its
    own reading of the clock. *)
Definition logAll (calls : list (env * value)) (s : state) : state :=
  fold_left (fun s call => snd (logApplicationSubmission (fst call) (snd call) s))
    calls s.

Definition dailyLimitReached (count : Z) : notification :=
  {| to_tab := None; notice := "dailyLimitReached";
     payload := Obj [("count", Num count)] |}.

Definition healthUrl (port : Z) : string := companionUrl port +:+ "/health".

Definition healthy (e : env) (port : Z) : bool :=
  match network e (healthUrl port) with
  | Responds true => true
  | _ => false
  end.

(** The first port of a list that answers OK, with its position. *)
Definition firstHealthy (e : env) (ps : list Z) : option (nat * Z) :=
  list_find (fun port => healthy e port) ps.

Definition noStorage : storage :=
  {| sync_userProfile := None; sync_settings := None;
     local_records := ∅; local_counters := ∅;
     local_companionStatus := None; local_companionPort := None |}.

Definition silent : env :=
  {| now := 1700000000000; isoString := "2023-11-14T22:13:20.000Z";
     dateString := "Tue Nov 14 2023";
     network := fun _ => Rejects "Failed to fetch" |}.

(** The state [logApplicationSubmission] leaves when it returns. *)
Definition logged (e : env) (data : value) (s : state) : state :=
  let count := quotaCounter s (dateString e) + 1 in
  let s1 :=
    with_userProfile (Some (effectiveProfile s))
      (with_store (put_counter (counterKey (dateString e)) count)
         (with_store
            (put_record (recordKey (get data "jobId") (now e))
               (spread data ++ [("timestamp", Str (isoString e));
                                ("domain", Str "ca.indeed.com")]))
            s)) in
  if dailyMaximum s <=? count
  then with_notified (notified s ++ [dailyLimitReached count]) s1
  else s1.

(** A call on the date [today] whose data is an object, as the content
    script sends it. *)
Definition loggable (today : string) (call : env * value) : Prop :=
  dateString (fst call) = today /\ snd call <> Undefined /\ snd call <> Null.

Definition submission (job : string) : value :=
  Obj [("jobId", Str job); ("success", Bool true);
       ("timestamp", Str "2023-11-14T22:13:20.000Z")].

(** A new worker on a day on which 10 submissions are already counted,
    the default maximum. *)
Definition atMaximum : state :=
  with_store (put_counter (counterKey (dateString silent)) 10)
    (constructor noStorage).

End Spec.

(** ** Vocabulary of the properties of the content script *)

Module PageSpec.
Import ContentScript.

(** The descriptors in a [formFields] object: its values that are not
    [null]. *)
Definition descriptors (entries : list (string * option field)) : list field :=
  omap snd entries.

(** An input-like element. *)
Definition candidate (e : element) : bool :=
  String.eqb (tagName e) "input" || String.eqb (tagName e) "select"
  || String.eqb (tagName e) "textarea".

(** The document after [highlightDetectedFields] on the given entries. *)
Definition highlightAll (entries : list (string * option field))
    (doc : list element) : list element :=
  fold_left (fun d entry =>
               match snd entry with
               | Some f => alter highlight (field_element f) d
               | None => d
               end) entries doc.



(** [isSuccess] of [checkSubmissionResult]. *)
Definition showsSuccess (s : state) : bool :=
  existsb (fun indicator =>
             JS.includes (JS.toLowerCase (bodyText s)) (JS.toLowerCase indicator))
    successIndicators.

(** The data of the [applicationSubmitted] message. *)
Definition report (s : state) (iso : string) : JS.value :=
  JS.Obj [ ("jobId", match jobData s with
                     | Some job => jobId job
                     | None => JS.Undefined
                     end);
           ("success", JS.Bool true);
           ("timestamp", JS.Str iso) ].

(** The message the worker receives for a [sendToBackground]. *)
Definition received (action : string) (data : JS.value) : ServiceWorker.message :=
  {| ServiceWorker.action := JS.Str action; ServiceWorker.data := JS.json data |}.

(** The page and the worker side by side; [executeAutoFill] runs on the
    page alone. *)
Definition autoFill (system : state * ServiceWorker.state)
  : result unit * (state * ServiceWorker.state) :=
  let '(r, page) := executeAutoFill (fst system) in (r, (page, snd system)).

(** *** Sample pages *)

Definition shown (tagName type : string) (attributes : list (string * string))
  : element :=
  {| tagName := tagName; attributes := attributes; type := type;
     required := false; value := ""; options := [];
     display := "block"; visibility := "visible"; offsetParent := true;
     border := ""; boxShadow := ""; ancestors := [("form", "apply")] |}.

Definition hidden (tagName type : string) (attributes : list (string * string))
  : element :=
  {| tagName := tagName; attributes := attributes; type := type;
     required := false; value := ""; options := [];
     display := "none"; visibility := "visible"; offsetParent := false;
     border := ""; boxShadow := ""; ancestors := [("form", "apply")] |}.

Definition emailAttributes : list (string * string) :=
  [("type", "email"); ("name", "email"); ("id", "email")].

Definition linkedin : element :=
  shown "input" "text"
    [("type", "text"); ("name", "linkedin"); ("id", "linkedin");
     ("placeholder", "LinkedIn profile")].

Definition fullName : element :=
  shown "input" "text" [("type", "text"); ("name", "firstName_lastName")].

Definition telephone : element :=
  shown "input" "tel" [("type", "tel"); ("name", "phone")].

Definition submitButton : element :=
  shown "button" "submit" [("type", "submit"); ("id", "submit-application")].

Definition applicant : Profile :=
  {| firstName := JS.Str "Alex"; lastName := JS.Str "Chen";
     email := JS.Str "alex@x.com"; phone := JS.Num 5551234;
     location := JS.Str ""; workAuthorization := JS.Str "";
     availableStartDate := JS.Str ""; skills := [];
     resumePath := JS.Str "";
     preferences := preferences ServiceWorker.getDefaultProfile |}.

(** An application page after detection, with the control panel in
    place: a telephone field and a submit button, a profile whose phone
    is stored as a number. *)
Definition applyPage : state :=
  {| document := [telephone; submitButton];
     bodyText := "Thank you. Application submitted";
     controls := true;
     submitDisabled := true;
     status := None;
     formFields := Some (detect [telephone; submitButton]);
     userProfile := Some applicant;
     jobData := Some {| title := JS.Str "Developer"; company := JS.Str "Acme";
                        jobId := JS.Str "abc" |};
     timers := [];
     trace := [] |}.

(** A method that does nothing, and the sender of a message from a
    content script. *)
Definition idle : JS.value -> M ServiceWorker.state unit := fun _ => mret tt.

Definition fromPage : ServiceWorker.sender :=
  {| ServiceWorker.tab := JS.Obj [("id", JS.Num 7)] |}.

End PageSpec.


(** ** Vocabulary of the further properties *)

Module MoreSpec.

Definition nullish (v : JS.value) : bool :=
  match v with
  | JS.Undefined | JS.Null => true
  | _ => false
  end.

Definition fileUploadFailed (message : string) : ServiceWorker.notification :=
  {| ServiceWorker.to_tab := None; ServiceWorker.notice := "fileUploadFailed";
     ServiceWorker.payload := JS.Obj [("error", JS.Str message)] |}.

(** The body of the upload request for the data of an [uploadFile]
    message. *)
Definition uploadBody (data : JS.value) : JS.value :=
  JS.Obj [ ("file_path", JS.get data "filePath");
           ("input_selector", JS.get data "selector") ].

(** Why an upload fails, if it does: the message of the error that
    [handleFileUpload] catches. *)
Definition uploadFailure (c : WorkerMethods.companion) (data : JS.value)
    (s : ServiceWorker.state) : option string :=
  match data with
  | JS.Undefined =>
      Some "Cannot read properties of undefined (reading 'filePath')"
  | JS.Null => Some "Cannot read properties of null (reading 'filePath')"
  | _ =>
      match c (ServiceWorker.localCompanionUrl s +:+ "/upload")
              (JS.json (uploadBody data)) with
      | WorkerMethods.Replies r =>
          if WorkerMethods.ok r
          then match WorkerMethods.parsed r with
               | Ok _ => None
               | Throw message => Some message
               end
          else Some ("Companion upload failed: " +:+ WorkerMethods.statusText r)
      | WorkerMethods.Refuses message => Some message
      end
  end.

(** The upload went through: the data is an object and the companion
    answered OK with a body that parses. *)
Definition uploaded (c : WorkerMethods.companion) (data : JS.value)
    (s : ServiceWorker.state) : bool :=
  match data with
  | JS.Undefined | JS.Null => false
  | _ =>
      match c (ServiceWorker.localCompanionUrl s +:+ "/upload")
              (JS.json (uploadBody data)) with
      | WorkerMethods.Replies r =>
          WorkerMethods.ok r
          && match WorkerMethods.parsed r with
             | Ok _ => true
             | Throw _ => false
             end
      | WorkerMethods.Refuses _ => false
      end
  end.

Definition jobAnalyzed (jobData jobId : JS.value) : ServiceWorker.notification :=
  {| ServiceWorker.to_tab := None; ServiceWorker.notice := "jobAnalyzed";
     ServiceWorker.payload :=
       JS.Obj [ ("jobId", jobId);
                ("matchScore", JS.get jobData "matchScore");
                ("requiredSkills", JS.get jobData "requiredSkills") ] |}.

(** An entry of a [formFields] object as the worker receives it. *)
Definition encoded (entry : string * option ContentScript.field)
  : string * JS.value :=
  (fst entry,
   match snd entry with
   | None => JS.Null
   | Some f =>
       JS.Obj [ ("element", JS.Obj []);
                ("selector",
                 JS.Str (ContentScript.selector_text (ContentScript.field_selector f)));
                ("type", JS.Str (ContentScript.field_type f));
                ("required", JS.Bool (ContentScript.field_required f)) ]
   end).

(** A companion that cannot be reached, and one that answers every
    request with an empty JSON object. *)
Definition unreachable : WorkerMethods.companion :=
  fun _ _ => WorkerMethods.Refuses "Failed to fetch".

Definition helpful : WorkerMethods.companion :=
  fun _ _ =>
    WorkerMethods.Replies
      {| WorkerMethods.ok := true; WorkerMethods.statusText := "OK";
         WorkerMethods.parsed := Ok (JS.Obj []) |}.

(** Every character of a string is a letter or a digit. *)
Fixpoint allAlnum (s : string) : bool :=
  match s with
  | EmptyString => true
  | String c rest => PageMethods.alnum c && allAlnum rest
  end.

(** A string does not go on with a letter or a digit. *)
Definition stops (s : string) : bool :=
  match s with
  | EmptyString => true
  | String c _ => negb (PageMethods.alnum c)
  end.

(** An element the script types into: neither a file input nor a
    single-choice select. *)
Definition typed (e : ContentScript.element) : bool :=
  negb (String.eqb (ContentScript.type e) "file")
  && negb (String.eqb (ContentScript.type e) "select-one").

(** The [value] of the element at a position. *)
Definition valueAt (s : ContentScript.state) (i : nat) : option string :=
  ContentScript.value <$> ContentScript.document s !! i.

(** The state [fillField] leaves on an element it types into, for a
    text that is not empty. *)
Definition firstTyped (i : nat) (c : ascii) (rest : string)
    (s : ContentScript.state) : ContentScript.state :=
  ContentScript.with_timers
    (ContentScript.timers s ++ [ContentScript.TypeChar i rest])
    (ContentScript.with_trace
       (ContentScript.trace s
          ++ [ContentScript.Focus i;
              ContentScript.KeyboardEvent i "keydown" (String c "");
              ContentScript.KeyboardEvent i "keypress" (String c "");
              ContentScript.DispatchEvent i "input";
              ContentScript.KeyboardEvent i "keyup" (String c "");
              ContentScript.DispatchEvent i "input";
              ContentScript.DispatchEvent i "change";
              ContentScript.DispatchEvent i "blur"])
       (ContentScript.with_document
          (alter (fun e => ContentScript.set_value (String c "") e) i
             (ContentScript.document s)) s)).

(** What filling leaves as it was: everything of the script but the
    document, the timers and the trace, and every element but the
    [i]-th. *)
Definition framed (i : nat) (s s' : ContentScript.state) : Prop :=
  ContentScript.bodyText s' = ContentScript.bodyText s
  /\ ContentScript.controls s' = ContentScript.controls s
  /\ ContentScript.submitDisabled s' = ContentScript.submitDisabled s
  /\ ContentScript.status s' = ContentScript.status s
  /\ ContentScript.formFields s' = ContentScript.formFields s
  /\ ContentScript.userProfile s' = ContentScript.userProfile s
  /\ ContentScript.jobData s' = ContentScript.jobData s
  /\ forall j, j <> i ->
       ContentScript.document s' !! j = ContentScript.document s !! j.

(** The same, for every element that is no target of the entries. *)
Definition framedAll (entries : list (string * option ContentScript.field))
    (s s' : ContentScript.state) : Prop :=
  ContentScript.bodyText s' = ContentScript.bodyText s
  /\ ContentScript.controls s' = ContentScript.controls s
  /\ ContentScript.submitDisabled s' = ContentScript.submitDisabled s
  /\ ContentScript.status s' = ContentScript.status s
  /\ ContentScript.formFields s' = ContentScript.formFields s
  /\ ContentScript.userProfile s' = ContentScript.userProfile s
  /\ ContentScript.jobData s' = ContentScript.jobData s
  /\ forall j,
       j ∉ map ContentScript.field_element (PageSpec.descriptors entries) ->
       ContentScript.document s' !! j = ContentScript.document s !! j.

(** *** Sample pages and data *)

Definition country : ContentScript.element :=
  {| ContentScript.tagName := "select";
     ContentScript.attributes := [("name", "work_auth")];
     ContentScript.type := "select-one";
     ContentScript.required := false;
     ContentScript.value := "us";
     ContentScript.options := [("", "Choose"); ("ca", "Canadian citizen");
                               ("pr", "Permanent resident")];
     ContentScript.display := "block"; ContentScript.visibility := "visible";
     ContentScript.offsetParent := true;
     ContentScript.border := ""; ContentScript.boxShadow := "";
     ContentScript.ancestors := [("form", "apply")] |}.

(** An application page on which nothing has run yet. *)
Definition freshPage : ContentScript.state :=
  {| ContentScript.document := [PageSpec.telephone; country; PageSpec.submitButton];
     ContentScript.bodyText := "Apply now";
     ContentScript.controls := false;
     ContentScript.submitDisabled := true;
     ContentScript.status := None;
     ContentScript.formFields := None;
     ContentScript.userProfile := None;
     ContentScript.jobData := None;
     ContentScript.timers := [];
     ContentScript.trace := [] |}.

(** The page of [applyPage] with a profile whose phone is a string. *)
Definition readyPage : ContentScript.state :=
  {| ContentScript.document := [PageSpec.telephone; country; PageSpec.submitButton];
     ContentScript.bodyText := "THANK YOU for applying";
     ContentScript.controls := true;
     ContentScript.submitDisabled := true;
     ContentScript.status := None;
     ContentScript.formFields :=
       Some (ContentScript.detect
               [PageSpec.telephone; country; PageSpec.submitButton]);
     ContentScript.userProfile := Some ServiceWorker.getDefaultProfile;
     ContentScript.jobData := None;
     ContentScript.timers := [];
     ContentScript.trace := [] |}.

(** *** Answers, typed text and the work of the executor *)


Fixpoint every (p : ascii -> bool) (s : string) : bool :=
  match s with
  | EmptyString => true
  | String c rest => p c && every p rest
  end.

(** A printable ASCII character, the space included; and one that is
    not the space. *)
Definition printable (c : ascii) : bool :=
  let n := nat_of_ascii c in Nat.leb 32 n && Nat.leb n 126.

Definition graphic (c : ascii) : bool :=
  let n := nat_of_ascii c in Nat.leb 33 n && Nat.leb n 126.

(** The element keeps a text as it is written into it, prefix by
    prefix: a text control whose value the browser only strips of line
    breaks, or of line breaks and surrounding white space, and a text
    that has none of them.  The value of any other control (a date, a
    number, a colour) is sanitised by the browser and is not a free
    string; such controls are outside these properties. *)
Definition accepts (e : ContentScript.element) (text : string) : bool :=
  if existsb (String.eqb (ContentScript.type e))
       ["text"; "search"; "tel"; "password"; "textarea"]
  then every printable text
  else if existsb (String.eqb (ContentScript.type e)) ["email"; "url"]
  then every graphic text
  else false.



(** A profile as the popup stores it: every field is the text of a
    form control, and no start date is stored. *)
Definition stored : Profile :=
  {| firstName := JS.Str "Alex"; lastName := JS.Str "Chen";
     email := JS.Str "alex@example.com"; phone := JS.Str "5551234";
     location := JS.Str "Toronto"; workAuthorization := JS.Str "work_permit";
     availableStartDate := JS.Undefined; skills := ["sql"];
     resumePath := JS.Str "";
     preferences := preferences ServiceWorker.getDefaultProfile |}.

Definition authorization : ContentScript.element :=
  {| ContentScript.tagName := "select";
     ContentScript.attributes := [("name", "work_auth")];
     ContentScript.type := "select-one";
     ContentScript.required := true;
     ContentScript.value := "";
     ContentScript.options := [("", "Please choose"); ("citizen", "Canadian citizen");
                               ("pr", "Permanent resident")];
     ContentScript.display := "block"; ContentScript.visibility := "visible";
     ContentScript.offsetParent := true;
     ContentScript.border := ""; ContentScript.boxShadow := "";
     ContentScript.ancestors := [("form", "apply")] |}.

(** An application page after detection, with the control panel in
    place and the stored profile: a telephone field, a select for the
    work authorization that has no option for the profile's value, and
    a submit button. *)
Definition permitPage : ContentScript.state :=
  {| ContentScript.document := [PageSpec.telephone; authorization; PageSpec.submitButton];
     ContentScript.bodyText := "Apply now";
     ContentScript.controls := true;
     ContentScript.submitDisabled := true;
     ContentScript.status := Some ("", "");
     ContentScript.formFields :=
       Some (ContentScript.detect
               [PageSpec.telephone; authorization; PageSpec.submitButton]);
     ContentScript.userProfile := Some stored;
     ContentScript.jobData := None;
     ContentScript.timers := [];
     ContentScript.trace := [] |}.




End MoreSpec.


(** ** Properties of the service worker *)

Section worker_properties.
Import JS ServiceWorker Spec.

(** *** Strings *)

Lemma append_cons (c : ascii) (p q : string) :
  String c p +:+ q = String c (p +:+ q).
Proof. reflexivity. Qed.

Lemma append_nil (q : string) : "" +:+ q = q.
Proof. reflexivity. Qed.

Lemma append_empty_r (s : string) : s +:+ "" = s.
Proof. induction s as [|c s IH]; [done | by rewrite append_cons, IH]. Qed.

Lemma prefix_append (p s : string) :
  String.prefix p s = true <-> exists post, s = p +:+ post.
Proof.
  revert s. induction p as [|c p IH]; intros s; simpl.
  - split; [intros _; by exists s | by destruct s].
  - destruct s as [|c' s]; simpl.
    + split; [done | by intros [post H]].
    + destruct (Ascii.ascii_dec c c') as [->|Hne].
      * rewrite IH. split; intros [post H]; exists post.
        -- by rewrite append_cons, H.
        -- rewrite append_cons in H. by injection H.
      * split; [done | intros [post H]].
        rewrite append_cons in H. by injection H.
Qed.

Lemma includes_nil (sub : string) :
  includes "" sub = String.prefix sub "" || false.
Proof. reflexivity. Qed.

Lemma includes_cons (c : ascii) (s sub : string) :
  includes (String c s) sub = String.prefix sub (String c s) || includes s sub.
Proof. reflexivity. Qed.

Lemma includes_substring (s sub : string) :
  includes s sub = true <-> exists pre post, s = pre +:+ sub +:+ post.
Proof.
  induction s as [|c s IH]; [rewrite includes_nil | rewrite includes_cons].
  - rewrite orb_false_r, prefix_append. split.
    + intros [post H]. by exists "", post.
    + intros [pre [post H]]. destruct pre; [by exists post | done].
  - rewrite orb_true_iff, prefix_append, IH. split.
    + intros [[post H] | [pre [post H]]].
      * by exists "", post.
      * exists (String c pre), post. by rewrite append_cons, H.
    + intros [pre [post H]]. destruct pre as [|c' pre].
      * left. by exists post.
      * right. exists pre, post. rewrite append_cons in H. by injection H.
Qed.

Lemma endsWith_suffix (s sub : string) :
  endsWith s sub = true <-> exists pre, s = pre +:+ sub.
Proof.
  induction s as [|c s IH].
  - change (endsWith "" sub) with (String.eqb "" sub || false).
    rewrite orb_false_r, String.eqb_eq. split.
    + intros <-. by exists "".
    + intros [pre H]. destruct pre; [done | done].
  - change (endsWith (String c s) sub)
      with (String.eqb (String c s) sub || endsWith s sub).
    rewrite orb_true_iff, String.eqb_eq, IH. split.
    + intros [<- | [pre ->]]; [by exists "" | by exists (String c pre)].
    + intros [pre H]. destruct pre as [|c' pre].
      * by left.
      * right. exists pre. rewrite append_cons in H. by injection H.
Qed.

Lemma endsWith_includes (s sub : string) :
  endsWith s sub = true -> includes s sub = true.
Proof.
  rewrite endsWith_suffix, includes_substring. intros [pre ->].
  exists pre, "". by rewrite append_empty_r.
Qed.

(** The key of a counter is never the key of an application record. *)
Lemma counterKey_not_recordKey (today : string) (jobId : value) (ms : Z) :
  counterKey today <> recordKey jobId ms.
Proof.
  unfold counterKey, recordKey. rewrite !append_cons, !append_nil.
  intros H. by repeat injection H as _ H.
Qed.

(** *** The companion health check *)

Lemma tryPort_run (e : env) (port : Z) (s : state) :
  tryPort e port s =
    if healthy e port
    then (Ok (Some true),
          with_store (put_companion true (Some port))
            (with_localCompanionUrl (companionUrl port)
               (with_fetched (fetched s ++ [healthUrl port]) s)))
    else (Ok None, with_fetched (fetched s ++ [healthUrl port]) s).
Proof.
  unfold tryPort, healthy, fetchWithTimeout, try_catch, healthUrl.
  unfold mbind, M_bind, modify, mret, M_ret, throw.
  by destruct (network e _) as [[|]|msg].
Qed.

Lemma probe_run (e : env) (ps : list Z) (s : state) :
  probe e ps s =
    match firstHealthy e ps with
    | Some (i, port) =>
        (Ok true,
         with_store (put_companion true (Some port))
           (with_localCompanionUrl (companionUrl port)
              (with_fetched (fetched s ++ map healthUrl (take (S i) ps)) s)))
    | None =>
        (Ok false,
         with_store (put_companion false None)
           (with_fetched (fetched s ++ map healthUrl ps) s))
    end.
Proof.
  revert s. induction ps as [|port rest IH]; intros s.
  - destruct s. cbn. by rewrite app_nil_r.
  - unfold firstHealthy. cbn [list_find probe].
    unfold mbind at 1. unfold M_bind at 1. rewrite tryPort_run.
    destruct (healthy e port) eqn:Hh; simpl.
    + done.
    + rewrite IH. unfold firstHealthy.
      destruct (list_find _ rest) as [[i p]|]; simpl;
        by rewrite <- app_assoc.
Qed.

(** C10.  [checkLocalCompanion] requests
    [http://127.0.0.1:<port>/health] for the ports 8001, 8002, 8003,
    8080 in this order and stops at the first one that answers OK: it
    then sets [localCompanionUrl] to [http://127.0.0.1:<port>], stores
    [companionStatus: true] with the port, and returns [true].  When no
    port answers OK it has requested all four, stores
    [companionStatus: false], returns [false] and leaves
    [localCompanionUrl] and the stored port as they were. *)
Theorem checkLocalCompanion_adopts_first_healthy_port (e : env) (s : state) :
  let candidates :=
    [ (8001, "http://127.0.0.1:8001"); (8002, "http://127.0.0.1:8002");
      (8003, "http://127.0.0.1:8003"); (8080, "http://127.0.0.1:8080") ] in
  let answersOK (c : Z * string) :=
    match network e (snd c +:+ "/health") with
    | Responds true => true
    | _ => false
    end in
  let r := checkLocalCompanion e s in
  ports = [8001; 8002; 8003; 8080]
  /\ map companionUrl ports = map snd candidates
  /\ match list_find answersOK candidates with
     | Some (i, (port, url)) =>
         fst r = Ok true
         /\ localCompanionUrl (snd r) = url
         /\ local_companionStatus (store (snd r)) = Some true
         /\ local_companionPort (store (snd r)) = Some port
         /\ fetched (snd r)
            = fetched s
              ++ map (fun c => snd c +:+ "/health") (take (S i) candidates)
     | None =>
         fst r = Ok false
         /\ localCompanionUrl (snd r) = localCompanionUrl s
         /\ local_companionStatus (store (snd r)) = Some false
         /\ local_companionPort (store (snd r)) = local_companionPort (store s)
         /\ fetched (snd r)
            = fetched s ++ map (fun c => snd c +:+ "/health") candidates
     end.
Proof.
  cbn zeta. split; [reflexivity|]. split; [reflexivity|].
  unfold checkLocalCompanion, try_catch. rewrite probe_run.
  unfold firstHealthy, ports. cbn [list_find].
  unfold healthy, healthUrl.
  change (companionUrl 8001) with "http://127.0.0.1:8001".
  change (companionUrl 8002) with "http://127.0.0.1:8002".
  change (companionUrl 8003) with "http://127.0.0.1:8003".
  change (companionUrl 8080) with "http://127.0.0.1:8080".
  cbn [snd fst].
  destruct (network e ("http://127.0.0.1:8001" +:+ "/health")) as [[|]|?];
    [by destruct s| |];
    (destruct (network e ("http://127.0.0.1:8002" +:+ "/health")) as [[|]|?];
     [by destruct s| |]);
    (destruct (network e ("http://127.0.0.1:8003" +:+ "/health")) as [[|]|?];
     [by destruct s| |]);
    (destruct (network e ("http://127.0.0.1:8080" +:+ "/health")) as [[|]|?]);
    by destruct s.
Qed.

(** *** Defaults of the safety configuration *)

(** C8, as the code has it.  With no stored profile the worker resolves
    the user profile to the default one, whose preferences require
    confirmation, disable automatic submission and allow 10 applications
    a day; the whitelist of a new worker is the fixed pair of Indeed
    domains; and the settings written on installation require
    confirmation and allow 10 applications a day. *)
Theorem absent_configuration_defaults (st : storage) :
  sync_userProfile st = None ->
  let s := constructor st in
  getUserProfile s = (Ok getDefaultProfile, with_userProfile (Some getDefaultProfile) s)
  /\ requireConfirmation (preferences getDefaultProfile) = true
  /\ autoSubmit (preferences getDefaultProfile) = false
  /\ maxApplicationsPerDay (preferences getDefaultProfile) = 10
  /\ whitelist s = ["ca.indeed.com"; "indeed.ca"]
  /\ (confirmBeforeSubmit <$> sync_settings (store (snd (onInstalled "install" s))))
       = Some true
  /\ (maxDailyApplications <$> sync_settings (store (snd (onInstalled "install" s))))
       = Some 10.
Proof.
  intros Hnone s. repeat split.
  unfold getUserProfile, mbind, M_bind, gets, modify, mret, M_ret. simpl.
  by rewrite Hnone.
Qed.

Lemma absent_configuration_defaults_witness :
  sync_userProfile noStorage = None
  /\ whitelist (constructor noStorage) = ["ca.indeed.com"; "indeed.ca"].
Proof.
  split; [reflexivity|].
  apply (absent_configuration_defaults noStorage). reflexivity.
Defined.

(** C8 fails as stated: with no configuration at all the whitelist is
    not empty, an Indeed page passes the domain gate, and the daily
    maximum is 10, not 0. *)
Lemma absent_configuration_not_closed :
  let s := constructor noStorage in
  whitelist s <> []
  /\ isWhitelistedDomain s (Some "https://ca.indeed.com/viewjob?jk=abc") = true
  /\ fst (getUserProfile s) = Ok getDefaultProfile
  /\ maxApplicationsPerDay (preferences getDefaultProfile) <> 0.
Proof. repeat split; try discriminate; vm_compute; congruence. Qed.

(** *** The daily counter *)

Lemma getUserProfile_run (s : state) :
  getUserProfile s
  = (Ok (effectiveProfile s), with_userProfile (Some (effectiveProfile s)) s).
Proof.
  unfold getUserProfile, effectiveProfile, mbind, M_bind, gets, modify, mret, M_ret.
  destruct s as [u [p|] w st nt f]; reflexivity.
Qed.

Lemma logApplicationSubmission_run (e : env) (data : value) (s : state) :
  data <> Undefined -> data <> Null ->
  logApplicationSubmission e data s = (Ok tt, logged e data s).
Proof.
  intros Hu Hn. unfold logApplicationSubmission, logged.
  destruct data; try done;
    unfold mbind, M_bind, gets, modify; cbn beta iota;
    rewrite getUserProfile_run; cbn beta iota.
  all: unfold quotaCounter, dailyMaximum, effectiveProfile.
  all: destruct s as [u p w st nt f]; cbn.
  all: destruct (_ <=? _); reflexivity.
Qed.

Lemma quotaCounter_logged (e : env) (data : value) (s : state) :
  quotaCounter (logged e data s) (dateString e)
  = quotaCounter s (dateString e) + 1.
Proof.
  unfold logged. destruct (_ <=? _); unfold quotaCounter; cbn;
    by rewrite lookup_insert_eq.
Qed.

Lemma notified_logged (e : env) (data : value) (s : state) :
  notified (logged e data s)
  = (notified s ++
      if dailyMaximum s <=? quotaCounter s (dateString e) + 1
      then [dailyLimitReached (quotaCounter s (dateString e) + 1)] else [])%list.
Proof.
  unfold logged. destruct (_ <=? _); cbn; [done | by rewrite app_nil_r].
Qed.

(** C1, as the code has it.  Every logged submission of one calendar
    date returns normally and adds one to that date's counter, whatever
    the configured maximum: after [n] of them the counter has grown by
    [n].  The maximum only decides whether the [dailyLimitReached]
    notification goes out, which it does exactly when the new count has
    reached it. *)
Theorem quota_counter_counts_every_submission
    (today : string) (calls : list (env * value)) (s : state) :
  Forall (loggable today) calls ->
  quotaCounter (logAll calls s) today
    = quotaCounter s today + Z.of_nat (length calls)
  /\ Forall (fun call =>
       forall s',
         let r := logApplicationSubmission (fst call) (snd call) s' in
         fst r = Ok tt
         /\ quotaCounter (snd r) today = quotaCounter s' today + 1
         /\ notified (snd r)
            = (notified s' ++
                if dailyMaximum s' <=? quotaCounter s' today + 1
                then [dailyLimitReached (quotaCounter s' today + 1)]
                else [])%list) calls.
Proof.
  intros Hcalls. split.
  - revert s. induction Hcalls as [|[e data] calls (Hd & Hu & Hn) _ IH]; intros s.
    + simpl. lia.
    + cbn [logAll fold_left fst snd length] in *. unfold logAll in IH. rewrite IH.
      rewrite logApplicationSubmission_run by done. cbn [snd].
      rewrite <- Hd, quotaCounter_logged. lia.
  - eapply Forall_impl; [exact Hcalls|].
    intros [e data] (Hd & Hu & Hn) s'. cbn [fst snd] in *.
    rewrite logApplicationSubmission_run by done. cbn [fst snd].
    rewrite <- Hd. by rewrite quotaCounter_logged, notified_logged.
Qed.

Lemma quota_counter_counts_every_submission_witness :
  Forall (loggable (dateString silent))
    [(silent, submission "abc"); (silent, submission "def")]
  /\ quotaCounter
       (logAll [(silent, submission "abc"); (silent, submission "def")] atMaximum)
       (dateString silent)
     = quotaCounter atMaximum (dateString silent) + Z.of_nat 2.
Proof.
  assert (H : Forall (loggable (dateString silent))
                [(silent, submission "abc"); (silent, submission "def")]).
  { repeat constructor; discriminate. }
  split; [exact H|].
  apply (quota_counter_counts_every_submission (dateString silent)
           [(silent, submission "abc"); (silent, submission "def")] atMaximum H).
Defined.

(** C1 fails as stated: on a day whose counter already stands at the
    maximum of 10, one more logged submission is not aborted and takes
    the counter to 11. *)
Lemma quota_counter_exceeds_maximum :
  let r := logApplicationSubmission silent (submission "abc") atMaximum in
  quotaCounter atMaximum (dateString silent) = dailyMaximum atMaximum
  /\ fst r = Ok tt
  /\ dailyMaximum (snd r) = 10
  /\ quotaCounter (snd r) (dateString silent) = 11
  /\ dailyMaximum (snd r) < quotaCounter (snd r) (dateString silent).
Proof. repeat split; vm_compute; reflexivity. Qed.

(** *** The domain gate *)

(** C2, as the code has it.  The gate allows a URL exactly when the URL
    is a non-empty string in which some entry of the whitelist occurs
    somewhere; a URL that equals an entry or ends with one is therefore
    allowed.  The gate guards the [pageReloaded] notification of the
    tab-update listener: on deny the listener does nothing. *)
Theorem domain_gate_is_substring_match (s : state) (url : option string) :
  (isWhitelistedDomain s url = true <->
     exists u domain pre post,
       url = Some u /\ u <> "" /\ In domain (whitelist s)
       /\ u = pre +:+ domain +:+ post)
  /\ (forall u domain,
        url = Some u -> u <> "" -> In domain (whitelist s) ->
        endsWith u domain = true -> isWhitelistedDomain s url = true)
  /\ (forall tabId status,
        isWhitelistedDomain s url = false ->
        onUpdated tabId status url s = (Ok tt, s)).
Proof.
  assert (Hiff : isWhitelistedDomain s url = true <->
     exists u domain pre post,
       url = Some u /\ u <> "" /\ In domain (whitelist s)
       /\ u = pre +:+ domain +:+ post).
  { unfold isWhitelistedDomain. destruct url as [u|].
    - destruct (String.eqb_spec u "") as [->|Hne].
      + split; [done|]. by intros (u & d & pre & post & [= <-] & Hu & _).
      + rewrite existsb_exists. split.
        * intros (d & Hd & (pre & post & Hs)%includes_substring).
          by exists u, d, pre, post.
        * intros (u' & d & pre & post & [= <-] & _ & Hd & Hs).
          exists d. split; [done|]. apply includes_substring. by exists pre, post.
    - split; [done|]. by intros (u & d & pre & post & [=] & _). }
  split; [exact Hiff|]. split.
  - intros u d -> Hu Hd (pre & Hs)%endsWith_suffix. apply Hiff.
    exists u, d, pre, "". by rewrite append_empty_r.
  - intros tabId status Hdeny. unfold onUpdated, mbind, M_bind, gets. cbn.
    rewrite Hdeny, andb_false_r. reflexivity.
Qed.

(** C2 fails as stated: this origin passes the gate of a new worker,
    and the content script is notified, although the origin is no entry
    of the whitelist, does not end with one, and is not the end of one. *)
Lemma domain_gate_allows_non_suffix :
  let s := constructor noStorage in
  let u := "https://ca.indeed.com.evil.example" in
  isWhitelistedDomain s (Some u) = true
  /\ Forall (fun domain =>
       u <> domain /\ endsWith u domain = false /\ endsWith domain u = false)
       (whitelist s)
  /\ notified (snd (onUpdated 7 (Str "complete") (Some u) s))
     = [{| to_tab := Some 7; notice := "pageReloaded"; payload := Obj [] |}].
Proof.
  split; [vm_compute; reflexivity|]. split; [|vm_compute; reflexivity].
  repeat constructor; try discriminate; vm_compute; reflexivity.
Qed.

(** *** Message handling *)

Section message_handling.

Variables saveUserProfile processJobData processFormFields
          handleFileUpload takeScreenshot openSidePanel
  : value -> M state unit.

Let handle :=
  handleMessage saveUserProfile processJobData processFormFields
    handleFileUpload takeScreenshot openSidePanel.






End message_handling.



End worker_properties.

(** ** Properties of the content script *)

Section page_properties.
Import ContentScript PageSpec.

(** *** Field detection *)

Lemma querySelector_Some (doc : list element) (sel : selector) (i : nat) :
  querySelector doc sel = Some i ->
  exists e, doc !! i = Some e /\ matches e sel = true.
Proof.
  unfold querySelector. destruct (list_find _ doc) as [[j e]|] eqn:Hfind; [|done].
  intros [= <-]. apply list_find_Some in Hfind as (Hl & Hm & _).
  exists e. split; [done|]. by apply Is_true_eq_true.
Qed.

Lemma findField_Some (doc : list element) (sels : list selector) (f : field) :
  findField doc sels = Some f ->
  exists e,
    doc !! field_element f = Some e /\ isVisible e = true
    /\ querySelector doc (field_selector f) = Some (field_element f)
    /\ In (field_selector f) sels.
Proof.
  induction sels as [|sel rest IH]; [done|]. cbn [findField].
  destruct (querySelector doc sel) as [i|] eqn:Hq.
  - destruct (doc !! i) as [e|] eqn:Hl.
    + destruct (isVisible e) eqn:Hv.
      * intros [= <-]. cbn. exists e. eauto.
      * intros (e' & H1 & H2 & H3 & H4)%IH. exists e'. by repeat split; auto; right.
    + intros (e' & H1 & H2 & H3 & H4)%IH. exists e'. by repeat split; auto; right.
  - intros (e' & H1 & H2 & H3 & H4)%IH. exists e'. by repeat split; auto; right.
Qed.

Lemma findField_None (doc : list element) (sels : list selector) :
  (forall sel i e, In sel sels -> querySelector doc sel = Some i ->
                   doc !! i = Some e -> isVisible e = false) ->
  findField doc sels = None.
Proof.
  induction sels as [|sel rest IH]; [done|]. intros Hall. cbn [findField].
  assert (Hrest : findField doc rest = None).
  { apply IH. intros sel' i e ?. apply Hall. by right. }
  destruct (querySelector doc sel) as [i|] eqn:Hq; [|done].
  destruct (doc !! i) as [e|] eqn:Hl; [|done].
  rewrite (Hall sel i e); [done | by left | done | done].
Qed.

(** C7, as the code has it.  [findField] returns only visible elements:
    the element of a descriptor is in the document, is visible and is
    the first match of the descriptor's selector, one of the selectors
    tried.  A selector whose first match is invisible is passed over,
    and when that holds of every selector the result is [null]: the
    element gets no descriptor.  A descriptor has no [visible] flag. *)
Theorem findField_skips_invisible (doc : list element) (sels : list selector) :
  (forall f, findField doc sels = Some f ->
     exists e,
       doc !! field_element f = Some e /\ isVisible e = true
       /\ querySelector doc (field_selector f) = Some (field_element f)
       /\ In (field_selector f) sels)
  /\ ((forall sel i e, In sel sels -> querySelector doc sel = Some i ->
                       doc !! i = Some e -> isVisible e = false) ->
      findField doc sels = None).
Proof. split; [apply findField_Some | apply findField_None]. Qed.

(** C7 fails as stated: a hidden e-mail input gets no descriptor at all,
    and a disabled but visible one gets the same descriptor as an
    enabled one, with nothing that flags it. *)
Lemma invisible_field_is_omitted :
  let e := hidden "input" "email" emailAttributes in
  candidate e = true
  /\ isVisible e = false
  /\ findField [e] [input [Equals "type" "email"]; input [Contains "name" "email"];
                    input [Contains "id" "email"]] = None
  /\ descriptors (detect [e]) = []
  /\ descriptors (detect [shown "input" "email" (("disabled", "") :: emailAttributes)])
     = descriptors (detect [shown "input" "email" emailAttributes]).
Proof. repeat split; vm_compute; reflexivity. Qed.

Lemma selectors_sublist (doc : list element) (table : list (string * list selector)) :
  map field_selector
    (descriptors (map (fun entry => (fst entry, findField doc (snd entry))) table))
  `sublist_of` concat (map snd table).
Proof.
  induction table as [|[key sels] table IH]; [done|].
  cbn [map concat snd fst descriptors omap list_omap]. 
  destruct (findField doc sels) as [f|] eqn:Hf; cbn.
  - apply findField_Some in Hf as (e & _ & _ & _ & Hin).
    apply list_elem_of_In, list_elem_of_split in Hin as (l1 & l2 & ->).
    apply (sublist_app [field_selector f] _ _ _); [|exact IH].
    apply (sublist_app [] l1 [field_selector f] (field_selector f :: l2)).
    + apply sublist_nil_l.
    + apply sublist_skip, sublist_nil_l.
  - by apply sublist_inserts_l.
Qed.

Lemma fieldSelectors_NoDup : NoDup (concat (map snd fieldSelectors)).
Proof. apply (bool_decide_unpack _). by vm_compute. Qed.

Lemma detect_selectors_NoDup (doc : list element) :
  NoDup (map field_selector (descriptors (detect doc))).
Proof.
  eapply sublist_NoDup; [apply fieldSelectors_NoDup | apply selectors_sublist].
Qed.

Lemma list_find_alter_fst {A} (P : A -> Prop) `{!forall x, Decision (P x)}
    (f : A -> A) (l : list A) (i : nat) :
  (forall x, P (f x) <-> P x) ->
  fst <$> list_find P (alter f i l) = fst <$> list_find P l.
Proof.
  intros Hf. revert i. induction l as [|x l IH]; intros [|i]; try done.
  - cbn. destruct (decide (P (f x))) as [H1|H1], (decide (P x)) as [H2|H2];
      try done; exfalso; [by apply H2, Hf | by apply H1, Hf].
  - cbn. destruct (decide (P x)); [done|].
    specialize (IH i). 
    destruct (list_find P (alter f i l)) as [[]|], (list_find P l) as [[]|];
      cbn in *; congruence.
Qed.

Lemma querySelector_highlight (doc : list element) (i : nat) (sel : selector) :
  querySelector (alter highlight i doc) sel = querySelector doc sel.
Proof. unfold querySelector. by apply list_find_alter_fst. Qed.

Lemma findField_highlight (doc : list element) (i : nat) (sels : list selector) :
  findField (alter highlight i doc) sels = findField doc sels.
Proof.
  induction sels as [|sel rest IH]; [done|]. cbn [findField].
  rewrite querySelector_highlight, IH.
  destruct (querySelector doc sel) as [j|]; [|done].
  rewrite list_lookup_alter.
  destruct (decide (i = j)) as [->|]; [|done].
  by destruct (doc !! j).
Qed.

Lemma detect_highlight (doc : list element) (i : nat) :
  detect (alter highlight i doc) = detect doc.
Proof.
  unfold detect. apply map_ext. intros entry. by rewrite findField_highlight.
Qed.

Lemma highlightAll_cons (key : string) (f : option field)
    (entries : list (string * option field)) (doc : list element) :
  highlightAll ((key, f) :: entries) doc
  = highlightAll entries
      (match f with
       | Some x => alter highlight (field_element x) doc
       | None => doc
       end).
Proof. reflexivity. Qed.

Lemma detect_highlightAll (entries : list (string * option field)) (doc : list element) :
  detect (highlightAll entries doc) = detect doc.
Proof.
  revert doc. induction entries as [|[key [f|]] entries IH]; intros doc;
    [done | |]; rewrite highlightAll_cons, IH; [apply detect_highlight | done].
Qed.

Lemma highlightAll_lookup (entries : list (string * option field)) (doc : list element) (j : nat) :
  highlightAll entries doc !! j
  = (if bool_decide (j ∈ map field_element (descriptors entries)) then highlight else id) <$> doc !! j.
Proof.
  revert doc. induction entries as [|[key [f|]] entries IH]; intros doc.
  - cbn. by destruct (doc !! j).
  - rewrite highlightAll_cons, IH, list_lookup_alter.
    change (descriptors ((key, Some f) :: entries)) with (f :: descriptors entries).
    cbn [map].
    destruct (decide (field_element f = j)) as [->|Hne].
    + rewrite (bool_decide_eq_true_2 (_ ∈ _ :: _)) by (apply elem_of_cons; by left).
      destruct (doc !! j); case_bool_decide; done.
    + case_bool_decide as H1; case_bool_decide as H2; try done.
      * exfalso. apply H2, elem_of_cons. by right.
      * exfalso. apply H1. by apply elem_of_cons in H2 as [->|].
  - rewrite highlightAll_cons. apply IH.
Qed.

Lemma highlightAll_idempotent (entries : list (string * option field)) (doc : list element) :
  highlightAll entries (highlightAll entries doc) = highlightAll entries doc.
Proof.
  apply list_eq. intros j. rewrite !highlightAll_lookup.
  case_bool_decide; destruct (doc !! j); done.
Qed.

Lemma forEach_highlight (entries : list (string * option field)) (s : state) :
  forEach (fun entry : string * option field =>
             match snd entry with
             | Some f => update (field_element f) highlight
             | None => mret tt
             end) entries s
  = (Ok tt, with_document (highlightAll entries (document s)) s).
Proof.
  revert s. induction entries as [|[key [f|]] entries IH]; intros s.
  - by destruct s.
  - cbn [forEach snd]. unfold mbind, M_bind, update, modify. rewrite IH. by destruct s.
  - cbn [forEach snd]. unfold mbind, M_bind, mret, M_ret. by rewrite IH.
Qed.

Lemma highlightDetectedFields_run (s : state) (entries : list (string * option field)) :
  formFields s = Some entries ->
  highlightDetectedFields s
  = (Ok tt, with_document (highlightAll entries (document s)) s).
Proof.
  intros Hff. unfold highlightDetectedFields, mbind, M_bind, gets.
  rewrite Hff. apply forEach_highlight.
Qed.

Lemma detectFormFields_run (s : state) :
  detectFormFields s
  = (Ok tt,
     with_trace (trace s ++ [SendToBackground "formFieldsDetected"
                               (fields_value (detect (document s)))])
       (with_document (highlightAll (detect (document s)) (document s))
          (with_formFields (Some (detect (document s))) s))).
Proof.
  unfold detectFormFields, mbind, M_bind, gets, modify.
  rewrite (highlightDetectedFields_run _ (detect (document s))) by done.
  unfold sendToBackground, emit, modify. by destruct s.
Qed.

Lemma descriptors_length (entries : list (string * option field)) :
  (length (descriptors entries) <= length entries)%nat.
Proof.
  unfold descriptors, omap.
  induction entries as [|[key [f|]] entries IH]; simpl; lia.
Qed.

(** C6, as the code has it.  Detection fills one object with the nine
    fixed keys, each holding a descriptor or [null]: at most nine
    descriptors whatever the number of fields in the page.  The
    selectors of the descriptors are pairwise distinct.  Detection is
    idempotent: a second run on the page the first run left (with its
    highlighting) stores the same object and leaves the same document. *)
Theorem detection_is_bounded_and_idempotent (s : state) :
  let s1 := snd (detectFormFields s) in
  let s2 := snd (detectFormFields s1) in
  formFields s1 = Some (detect (document s))
  /\ map fst (detect (document s))
     = ["firstName"; "lastName"; "email"; "phone"; "resume"; "coverLetter";
        "location"; "workAuth"; "startDate"]
  /\ (length (descriptors (detect (document s))) <= 9)%nat
  /\ NoDup (map field_selector (descriptors (detect (document s))))
  /\ formFields s2 = formFields s1
  /\ document s2 = document s1.
Proof.
  cbn zeta. rewrite !detectFormFields_run. cbn [snd].
  split; [by destruct s|]. split; [done|]. split.
  { etrans; [apply descriptors_length|]. unfold detect. by rewrite length_map. }
  split; [apply detect_selectors_NoDup|].
  cbn [formFields document with_trace with_document with_formFields].
  by rewrite detect_highlightAll, highlightAll_idempotent.
Qed.

(** C6 fails as stated: a page with one labelled visible field that no
    selector names yields no descriptor, and a page with one field whose
    name holds both [firstName] and [lastName] yields two descriptors
    of that one element. *)
Lemma detection_count_differs :
  (length (List.filter (fun e => candidate e && isVisible e) [linkedin]) = 1%nat
   /\ length (descriptors (detect [linkedin])) = 0%nat)
  /\ (length (List.filter (fun e => candidate e && isVisible e) [fullName]) = 1%nat
      /\ map field_element (descriptors (detect [fullName])) = [0%nat; 0%nat]).
Proof. repeat split; vm_compute; reflexivity. Qed.

(** What detection finds is in the document. *)
Lemma detect_in_range (doc : list element) :
  Forall (fun f => (field_element f < length doc)%nat) (descriptors (detect doc)).
Proof.
  apply Forall_forall. intros f ([key found] & Hin & Hf)%list_elem_of_omap.
  cbn [snd] in Hf. subst found. unfold detect in Hin.
  apply list_elem_of_fmap in Hin as ([key' sels] & [= _ Hf] & _).
  symmetry in Hf. apply findField_Some in Hf as (e & He & _).
  by eapply lookup_lt_Some.
Qed.

(** *** Filling *)

















(** *** Submission *)

Lemma submitApplication_run (s : state) :
  submitApplication s =
    match querySelectorAny (document s) submitSelectors with
    | Some i =>
        (Ok tt,
         with_timers (timers s ++ [CheckSubmissionResult])
           (with_trace
              (trace s ++ [SendToBackground "takeScreenshot"
                              (JS.Obj [("stage", JS.Str "before_submit")]);
                           Click i]) s))
    | None =>
        (Ok tt,
         if controls s
         then with_status (Some ("Submit button not found", "error")) s
         else s)
    end.
Proof.
  unfold submitApplication, mbind, M_bind, gets.
  destruct (querySelectorAny _ _); [|done].
  unfold sendToBackground, emit, setTimeout, modify. destruct s; cbn.
  by rewrite <- app_assoc.
Qed.



End page_properties.

(** ** The page and the worker together *)

Section system_properties.
Import JS ServiceWorker Spec.

Variables saveUserProfile processJobData processFormFields
          handleFileUpload takeScreenshot openSidePanel
  : value -> M state unit.

Let handle :=
  handleMessage saveUserProfile processJobData processFormFields
    handleFileUpload takeScreenshot openSidePanel.

Lemma checkSubmissionResult_success (iso : string) (page : ContentScript.state) :
  PageSpec.showsSuccess page = true ->
  ContentScript.trace (snd (ContentScript.checkSubmissionResult iso page))
  = ContentScript.trace page
      ++ [ContentScript.SendToBackground "applicationSubmitted"
            (PageSpec.report page iso)].
Proof.
  intros Hs. unfold ContentScript.checkSubmissionResult, mbind, M_bind, gets.
  unfold PageSpec.showsSuccess in Hs. rewrite Hs.
  unfold ContentScript.sendToBackground, ContentScript.emit, ContentScript.showStatus, modify.
  cbn. by destruct (ContentScript.controls page).
Qed.

(** C4, as the code has it.  The counter gates neither the fill nor the
    submit.  [executeAutoFill] runs on the page alone.  With the counter
    already at or above the maximum, a confirmed submit on a page with a
    submit button requests the screenshot and clicks the button; when
    the page then shows a success indicator the submission is reported,
    and the worker answers [success: true], takes the counter one
    further above the maximum and sends [dailyLimitReached]. *)
Theorem quota_does_not_gate_submit
    (e : env) (sd : sender) (out : list response)
    (page : ContentScript.state) (worker : state) (i : nat) :
  ContentScript.querySelectorAny (ContentScript.document page)
    ContentScript.submitSelectors = Some i ->
  PageSpec.showsSuccess page = true ->
  dailyMaximum worker <= quotaCounter worker (dateString e) ->
  let page1 := snd (ContentScript.confirmAndSubmit true page) in
  let page2 := snd (ContentScript.checkSubmissionResult (isoString e) page1) in
  PageSpec.autoFill (page, worker)
    = (fst (ContentScript.executeAutoFill page),
       (snd (ContentScript.executeAutoFill page), worker))
  /\ ContentScript.trace page1
     = ContentScript.trace page
         ++ [ContentScript.SendToBackground "takeScreenshot"
               (Obj [("stage", Str "before_submit")]);
             ContentScript.Click i]
  /\ ContentScript.timers page1
     = ContentScript.timers page ++ [ContentScript.CheckSubmissionResult]
  /\ ContentScript.trace page2
     = ContentScript.trace page1
         ++ [ContentScript.SendToBackground "applicationSubmitted"
               (PageSpec.report page (isoString e))]
  /\ exists worker',
       handle e (PageSpec.received "applicationSubmitted"
                   (PageSpec.report page (isoString e))) sd (worker, out)
       = (Ok tt, (worker', out ++ [Success]))
       /\ quotaCounter worker' (dateString e)
          = quotaCounter worker (dateString e) + 1
       /\ dailyMaximum worker < quotaCounter worker' (dateString e)
       /\ notified worker'
          = notified worker
              ++ [dailyLimitReached (quotaCounter worker (dateString e) + 1)].
Proof.
  intros Hq Hs Hmax page1 page2.
  assert (Hpage1 : page1
            = ContentScript.with_timers
                (ContentScript.timers page ++ [ContentScript.CheckSubmissionResult])
                (ContentScript.with_trace
                   (ContentScript.trace page
                      ++ [ContentScript.SendToBackground "takeScreenshot"
                            (Obj [("stage", Str "before_submit")]);
                          ContentScript.Click i]) page)).
  { subst page1. unfold ContentScript.confirmAndSubmit.
    by rewrite submitApplication_run, Hq. }
  split.
  { unfold PageSpec.autoFill. cbn [fst snd].
    by destruct (ContentScript.executeAutoFill page). }
  split; [by rewrite Hpage1|]. split; [by rewrite Hpage1|]. split.
  { subst page2. rewrite checkSubmissionResult_success; by rewrite Hpage1. }
  set (data := json (PageSpec.report page (isoString e))).
  assert (Hrun : logApplicationSubmission e data worker
                 = (Ok tt, logged e data worker)).
  { apply logApplicationSubmission_run; subst data; by cbn. }
  exists (logged e data worker). split.
  { subst handle. unfold handleMessage, PageSpec.received. cbn [action ServiceWorker.data].
    fold data. cbn [is_case strict_eq_string String.eqb Ascii.eqb Bool.eqb].
    unfold try_catch, lift, sendResponse, modify, mbind, M_bind. cbn [fst snd].
    by rewrite Hrun. }
  rewrite quotaCounter_logged, notified_logged.
  split; [done|]. split; [lia|].
  by rewrite (proj2 (Z.leb_le _ _)) by lia.
Qed.
End system_properties.

Lemma quota_does_not_gate_submit_witness :
  ContentScript.querySelectorAny (ContentScript.document PageSpec.applyPage)
    ContentScript.submitSelectors = Some 1%nat
  /\ PageSpec.showsSuccess PageSpec.applyPage = true
  /\ Spec.dailyMaximum Spec.atMaximum
     <= Spec.quotaCounter Spec.atMaximum (ServiceWorker.dateString Spec.silent)
  /\ ContentScript.trace
       (snd (ContentScript.confirmAndSubmit true PageSpec.applyPage))
     = ContentScript.trace PageSpec.applyPage
         ++ [ContentScript.SendToBackground "takeScreenshot"
               (JS.Obj [("stage", JS.Str "before_submit")]);
             ContentScript.Click 1].
Proof.
  assert (H1 : ContentScript.querySelectorAny
                 (ContentScript.document PageSpec.applyPage)
                 ContentScript.submitSelectors = Some 1%nat)
    by (vm_compute; reflexivity).
  assert (H2 : PageSpec.showsSuccess PageSpec.applyPage = true)
    by (vm_compute; reflexivity).
  assert (H3 : Spec.dailyMaximum Spec.atMaximum
               <= Spec.quotaCounter Spec.atMaximum
                    (ServiceWorker.dateString Spec.silent))
    by (vm_compute; discriminate).
  split; [exact H1|]. split; [exact H2|]. split; [exact H3|].
  pose proof (quota_does_not_gate_submit
                PageSpec.idle PageSpec.idle PageSpec.idle PageSpec.idle
                PageSpec.idle PageSpec.idle Spec.silent PageSpec.fromPage []
                PageSpec.applyPage Spec.atMaximum 1%nat H1 H2 H3) as H.
  cbv zeta in H. exact (proj1 (proj2 H)).
Defined.

(** C4 fails as stated: with the counter at the maximum of 10, a
    confirmed submit on this page clicks the submit button, no status
    marks it as skipped, and once the success is reported the worker
    answers [success: true] and the counter stands at 11. *)
Lemma submit_not_skipped_at_maximum :
  let today := ServiceWorker.dateString Spec.silent in
  let page1 := snd (ContentScript.confirmAndSubmit true PageSpec.applyPage) in
  let page2 :=
    snd (ContentScript.checkSubmissionResult
           (ServiceWorker.isoString Spec.silent) page1) in
  let r :=
    ServiceWorker.handleMessage PageSpec.idle PageSpec.idle PageSpec.idle
      PageSpec.idle PageSpec.idle PageSpec.idle Spec.silent
      (PageSpec.received "applicationSubmitted"
         (PageSpec.report PageSpec.applyPage
            (ServiceWorker.isoString Spec.silent)))
      PageSpec.fromPage (Spec.atMaximum, []) in
  Spec.quotaCounter Spec.atMaximum today = Spec.dailyMaximum Spec.atMaximum
  /\ ContentScript.trace page1
     = [ContentScript.SendToBackground "takeScreenshot"
          (JS.Obj [("stage", JS.Str "before_submit")]);
        ContentScript.Click 1]
  /\ ContentScript.status page1 = None
  /\ ContentScript.status page2
     = Some ("Application submitted successfully!", "success")
  /\ snd (snd r) = [ServiceWorker.Success]
  /\ Spec.quotaCounter (fst (snd r)) today = 11.
Proof. repeat split; vm_compute; reflexivity. Qed.

(** ** Further properties of the service worker *)

Section more_worker_properties.
Import JS ServiceWorker WorkerMethods Spec MoreSpec.

(** *** The profile *)

(** X1.  [getUserProfile] reads the storage once: a second call returns
    what the first returned and changes nothing, and no later change of
    the storage areas shows in what it returns. *)
Theorem getUserProfile_reads_storage_once (s : state) (f : storage -> storage) :
  let r := getUserProfile s in
  getUserProfile (snd r) = (fst r, snd r)
  /\ fst (getUserProfile (with_store f (snd r))) = fst r.
Proof.
  cbn zeta. rewrite !getUserProfile_run. cbn [fst snd].
  unfold effectiveProfile. by destruct s as [u [p|] w st nt ft].
Qed.

(** X2.  A saved profile is the one [getUserProfile] returns from then
    on, in this worker and in a worker started later on the same
    storage. *)
Theorem saved_profile_survives_restart (p : Profile) (s : state) :
  let s1 := snd (saveUserProfile p s) in
  fst (saveUserProfile p s) = Ok tt
  /\ fst (getUserProfile s1) = Ok p
  /\ fst (getUserProfile (constructor (store s1))) = Ok p.
Proof.
  cbn zeta. rewrite !getUserProfile_run. by destruct s.
Qed.

(** *** The application log *)

Lemma append_inj_l (p a b : string) : p +:+ a = p +:+ b -> a = b.
Proof.
  induction p as [|c p IH]; [done|]. rewrite !append_cons. intros [= H]. auto.
Qed.

Lemma counterKey_inj (a b : string) : counterKey a = counterKey b -> a = b.
Proof. apply append_inj_l. Qed.

Lemma assoc_snoc (k k' : string) (v : value) (l : list (string * value)) :
  assoc k (l ++ [(k', v)])
  = if String.eqb k k' then Some v else assoc k l.
Proof.
  induction l as [|[k0 v0] l IH]; cbn.
  - done.
  - rewrite IH. by destruct (String.eqb k k').
Qed.

Lemma jobKey_not_recordKey (jobId jobId' : value) (ms : Z) :
  jobKey jobId <> recordKey jobId' ms.
Proof.
  unfold jobKey, recordKey. rewrite !append_cons. intros H. by injection H.
Qed.

(** X3.  Logging a submission leaves the counter of every other date as
    it was, and with it the stored profile, the settings and what is
    stored about the companion, whether the call returns or throws. *)
Theorem logApplicationSubmission_keeps_other_days
    (e : env) (data : value) (s : state) (other : string) :
  other <> dateString e ->
  let s' := snd (logApplicationSubmission e data s) in
  quotaCounter s' other = quotaCounter s other
  /\ sync_userProfile (store s') = sync_userProfile (store s)
  /\ sync_settings (store s') = sync_settings (store s)
  /\ local_companionStatus (store s') = local_companionStatus (store s)
  /\ local_companionPort (store s') = local_companionPort (store s)
  /\ localCompanionUrl s' = localCompanionUrl s.
Proof.
  intros Hother.
  assert (Hne : counterKey (dateString e) <> counterKey other).
  { intros H%counterKey_inj. congruence. }
  destruct data; try done;
    (rewrite logApplicationSubmission_run by done; cbn zeta; cbn [snd];
     unfold logged; destruct (_ <=? _); unfold quotaCounter; cbn;
     by rewrite lookup_insert_ne).
Qed.

Lemma logApplicationSubmission_keeps_other_days_witness :
  "Mon Nov 13 2023" <> dateString silent
  /\ quotaCounter (snd (logApplicationSubmission silent (submission "abc") atMaximum))
       "Mon Nov 13 2023"
     = quotaCounter atMaximum "Mon Nov 13 2023".
Proof.
  assert (H : "Mon Nov 13 2023" <> dateString silent) by discriminate.
  split; [exact H|].
  exact (proj1 (logApplicationSubmission_keeps_other_days
                  silent (submission "abc") atMaximum "Mon Nov 13 2023" H)).
Defined.

(** X4.  The record of a logged submission is stored under its key with
    the worker's own [timestamp] and the domain [ca.indeed.com], which
    replace a [timestamp] or [domain] of the data; every other property
    of the data is kept. *)
Theorem application_record_is_stamped (e : env) (data : value) (s : state) :
  data <> Undefined -> data <> Null ->
  exists record,
    local_records (store (snd (logApplicationSubmission e data s)))
      !! recordKey (get data "jobId") (now e) = Some record
    /\ assoc "domain" record = Some (Str "ca.indeed.com")
    /\ assoc "timestamp" record = Some (Str (isoString e))
    /\ forall k, k <> "timestamp" -> k <> "domain" ->
                 assoc k record = assoc k (spread data).
Proof.
  intros Hu Hn. rewrite logApplicationSubmission_run by done. cbn [snd].
  eexists. split.
  { unfold logged. destruct (_ <=? _); cbn; apply lookup_insert_eq. }
  change (spread data ++ [("timestamp", Str (isoString e));
                          ("domain", Str "ca.indeed.com")])
    with (spread data ++ [("timestamp", Str (isoString e))]
            ++ [("domain", Str "ca.indeed.com")]).
  rewrite app_assoc. split; [by rewrite assoc_snoc|]. split.
  - by rewrite !assoc_snoc.
  - intros k Ht Hd. rewrite !assoc_snoc.
    by rewrite (proj2 (String.eqb_neq k "domain")),
               (proj2 (String.eqb_neq k "timestamp")).
Qed.

Lemma application_record_is_stamped_witness :
  submission "abc" <> Undefined /\ submission "abc" <> Null
  /\ exists record,
       local_records
         (store (snd (logApplicationSubmission silent (submission "abc") atMaximum)))
         !! recordKey (get (submission "abc") "jobId") (now silent) = Some record
       /\ assoc "domain" record = Some (Str "ca.indeed.com")
       /\ assoc "timestamp" record = Some (Str (isoString silent))
       /\ forall k, k <> "timestamp" -> k <> "domain" ->
                    assoc k record = assoc k (spread (submission "abc")).
Proof.
  assert (H1 : submission "abc" <> Undefined) by discriminate.
  assert (H2 : submission "abc" <> Null) by discriminate.
  split; [exact H1|]. split; [exact H2|].
  exact (application_record_is_stamped silent (submission "abc") atMaximum H1 H2).
Defined.

(** X5.  Job records and application records never overwrite each
    other: [processJobData] leaves every application record and every
    counter as it was, and [logApplicationSubmission] leaves every job
    record as it was. *)
Theorem job_and_application_records_do_not_collide
    (e : env) (v : value) (s : state) (jobId : value) (ms : Z) :
  (let s' := snd (processJobData e v s) in
   local_records (store s') !! recordKey jobId ms
   = local_records (store s) !! recordKey jobId ms
   /\ local_counters (store s') = local_counters (store s))
  /\ local_records (store (snd (logApplicationSubmission e v s))) !! jobKey jobId
     = local_records (store s) !! jobKey jobId.
Proof.
  split.
  - cbn zeta. unfold processJobData, mbind, M_bind, modify, notifyContentScript, modify.
    destruct v; try done; cbn [throw snd];
      destruct (truthy _); cbn; (split; [|done]);
      apply lookup_insert_ne, jobKey_not_recordKey.
  - destruct v; try done;
      (rewrite logApplicationSubmission_run by done; cbn [snd];
       unfold logged; destruct (_ <=? _); cbn;
       apply lookup_insert_ne; intros H; symmetry in H;
       by apply jobKey_not_recordKey in H).
Qed.

(** X6.  [processJobData] stores the job under [job_<jobId>], with the
    clock's reading in place of a missing or empty [jobId], marks it
    [analyzed] and stamps it, keeping the other properties of the data;
    it announces the job to the content scripts exactly when the match
    score is truthy, so a score of 0 is stored and never announced. *)
Theorem processJobData_stores_and_announces (e : env) (jobData : value) (s : state) :
  jobData <> Undefined -> jobData <> Null ->
  let r := processJobData e jobData s in
  let jobId := or_else (get jobData "jobId") (Str (Z_to_string (now e))) in
  fst r = Ok tt
  /\ (exists record,
        local_records (store (snd r)) !! jobKey jobId = Some record
        /\ assoc "status" record = Some (Str "analyzed")
        /\ assoc "timestamp" record = Some (Str (isoString e))
        /\ forall k, k <> "timestamp" -> k <> "status" ->
                     assoc k record = assoc k (spread jobData))
  /\ notified (snd r)
     = notified s ++ (if truthy (get jobData "matchScore")
                      then [jobAnalyzed jobData jobId] else []).
Proof.
  intros Hu Hn. cbn zeta.
  assert (Hrun : processJobData e jobData s
    = (Ok tt,
       (if truthy (get jobData "matchScore")
        then with_notified
               (notified s ++ [jobAnalyzed jobData
                  (or_else (get jobData "jobId") (Str (Z_to_string (now e))))])
        else id)
         (with_store
            (put_record
               (jobKey (or_else (get jobData "jobId") (Str (Z_to_string (now e)))))
               (spread jobData ++ [("timestamp", Str (isoString e));
                                   ("status", Str "analyzed")])) s))).
  { unfold processJobData, mbind, M_bind, modify, notifyContentScript, modify.
    destruct jobData; try done; by destruct (truthy _). }
  rewrite Hrun. cbn [fst snd]. split; [done|]. split.
  - eexists. split.
    { destruct (truthy _); cbn; apply lookup_insert_eq. }
    change (spread jobData ++ [("timestamp", Str (isoString e));
                               ("status", Str "analyzed")])
      with (spread jobData ++ [("timestamp", Str (isoString e))]
              ++ [("status", Str "analyzed")]).
    rewrite app_assoc. split; [by rewrite assoc_snoc|]. split.
    + by rewrite !assoc_snoc.
    + intros k Ht Hd. rewrite !assoc_snoc.
      by rewrite (proj2 (String.eqb_neq k "status")),
                 (proj2 (String.eqb_neq k "timestamp")).
  - destruct (truthy _); destruct s; cbn; by rewrite ?app_nil_r.
Qed.

Lemma processJobData_stores_and_announces_witness :
  let job := Obj [("title", Str "Developer"); ("matchScore", Num 0)] in
  job <> Undefined /\ job <> Null
  /\ notified (snd (processJobData silent job atMaximum)) = notified atMaximum ++ [].
Proof.
  cbn zeta.
  assert (H1 : Obj [("title", Str "Developer"); ("matchScore", Num 0)] <> Undefined)
    by discriminate.
  assert (H2 : Obj [("title", Str "Developer"); ("matchScore", Num 0)] <> Null)
    by discriminate.
  split; [exact H1|]. split; [exact H2|].
  exact (proj2 (proj2 (processJobData_stores_and_announces silent _ atMaximum H1 H2))).
Defined.

(** *** The companion *)

(** X7.  The health check settles: a second check against the same
    network returns what the first returned and leaves the companion
    URL and the storage as the first left them.  The stored
    [companionPort] is the adopted port and [companionStatus] tells
    whether a port was adopted; a check that returns [false] has stored
    [companionStatus: false] and has left the stored port and the
    companion URL as they were. *)
Theorem checkLocalCompanion_settles (e : env) (s : state) :
  let r1 := checkLocalCompanion e s in
  let r2 := checkLocalCompanion e (snd r1) in
  fst r2 = fst r1
  /\ localCompanionUrl (snd r2) = localCompanionUrl (snd r1)
  /\ store (snd r2) = store (snd r1)
  /\ local_companionPort (store (snd r1))
     = match firstHealthy e ports with
       | Some (_, port) => Some port
       | None => local_companionPort (store s)
       end
  /\ local_companionStatus (store (snd r1))
     = Some (match firstHealthy e ports with
             | Some _ => true
             | None => false
             end)
  /\ (fst r1 = Ok false ->
      local_companionStatus (store (snd r1)) = Some false
      /\ local_companionPort (store (snd r1)) = local_companionPort (store s)
      /\ localCompanionUrl (snd r1) = localCompanionUrl s).
Proof.
  cbn zeta. unfold checkLocalCompanion, try_catch. rewrite !probe_run.
  destruct (firstHealthy e ports) as [[i port]|] eqn:H; cbn [fst snd];
    rewrite ?probe_run, ?H; destruct s; by repeat split.
Qed.

Lemma handleFileUpload_run (c : companion) (data : value) (s : state) :
  handleFileUpload c data s
  = (Ok tt,
     (match uploadFailure c data s with
      | Some message =>
          fun s1 => with_notified (notified s1 ++ [fileUploadFailed message]) s1
      | None => id
      end)
       (if nullish data then s
        else with_fetched (fetched s ++ [localCompanionUrl s +:+ "/upload"]) s)).
Proof.
  unfold handleFileUpload, uploadFailure, uploadBody, try_catch, post,
    notifyContentScript, fileUploadFailed.
  unfold mbind, M_bind, gets, modify, throw, mret, M_ret.
  destruct data; cbn [nullish]; try done.
  all: destruct (c _ _) as [[k st [v|m]]|m]; cbn; try destruct k; cbn; done.
Qed.

Lemma takeScreenshot_run (e : env) (c : companion) (data : value) (s : state) :
  takeScreenshot e c data s
  = (Ok tt,
     if nullish data then s
     else with_fetched (fetched s ++ [localCompanionUrl s +:+ "/screenshot"]) s).
Proof.
  unfold takeScreenshot, try_catch, post.
  unfold mbind, M_bind, gets, modify, throw, mret, M_ret.
  destruct data; cbn [nullish]; try done.
  all: destruct (c _ _) as [[k st [v|m]]|m]; cbn; try destruct k; cbn; done.
Qed.

(** X8.  [handleFileUpload] never throws and changes neither the
    storage nor the companion URL.  For data that is an object it sends
    one request, to the [/upload] path of the companion URL.  It is
    silent exactly when the upload went through; in every other case it
    sends one [fileUploadFailed] notification. *)
Theorem handleFileUpload_never_throws (c : companion) (data : value) (s : state) :
  let r := handleFileUpload c data s in
  fst r = Ok tt
  /\ store (snd r) = store s
  /\ localCompanionUrl (snd r) = localCompanionUrl s
  /\ fetched (snd r)
     = fetched s ++ (if nullish data then []
                     else [localCompanionUrl s +:+ "/upload"])
  /\ (if uploaded c data s
      then notified (snd r) = notified s
      else exists message,
             notified (snd r) = notified s ++ [fileUploadFailed message]).
Proof.
  cbn zeta. rewrite handleFileUpload_run. cbn [fst snd].
  unfold uploadFailure, uploaded.
  destruct data; cbn [nullish];
    try (destruct s; cbn; rewrite ?app_nil_r; repeat split; by eexists).
  all: destruct (c _ _) as [[k st [v|m]]|m]; cbn; try destruct k; cbn;
    destruct s; cbn; rewrite ?app_nil_r; repeat split; by eexists.
Qed.

(** X9.  [takeScreenshot] never throws and never tells anyone that a
    screenshot failed: whatever the companion answers, the worker is
    left as it was but for the request, which goes to the [/screenshot]
    path of the companion URL when the data is an object. *)
Theorem takeScreenshot_is_silent (e : env) (c : companion) (data : value) (s : state) :
  let r := takeScreenshot e c data s in
  fst r = Ok tt
  /\ notified (snd r) = notified s
  /\ store (snd r) = store s
  /\ userProfile (snd r) = userProfile s
  /\ localCompanionUrl (snd r) = localCompanionUrl s
  /\ fetched (snd r)
     = fetched s ++ (if nullish data then []
                     else [localCompanionUrl s +:+ "/screenshot"]).
Proof.
  cbn zeta. rewrite takeScreenshot_run. cbn [fst snd].
  destruct (nullish data); destruct s; cbn; rewrite ?app_nil_r; by repeat split.
Qed.

(** X10.  After a health check, screenshots and uploads go to the port
    the check adopted, and to the URL configured before when no port
    answered. *)
Theorem requests_follow_the_adopted_port
    (e : env) (c : companion) (data : value) (s : state) :
  data <> Undefined -> data <> Null ->
  let s1 := snd (checkLocalCompanion e s) in
  let base :=
    match firstHealthy e ports with
    | Some (_, port) => companionUrl port
    | None => localCompanionUrl s
    end in
  last (fetched (snd (takeScreenshot e c data s1))) = Some (base +:+ "/screenshot")
  /\ last (fetched (snd (handleFileUpload c data s1))) = Some (base +:+ "/upload").
Proof.
  intros Hu Hn. cbn zeta.
  assert (Hnn : nullish data = false) by by destruct data.
  rewrite takeScreenshot_run, handleFileUpload_run, Hnn. cbn [snd].
  unfold checkLocalCompanion, try_catch. rewrite probe_run.
  destruct (firstHealthy e ports) as [[i port]|];
    destruct (uploadFailure c data _); destruct s; cbn; by rewrite !last_snoc.
Qed.

Lemma requests_follow_the_adopted_port_witness :
  submission "abc" <> Undefined /\ submission "abc" <> Null
  /\ last (fetched (snd (takeScreenshot silent unreachable (submission "abc")
                           (snd (checkLocalCompanion silent atMaximum)))))
     = Some (match firstHealthy silent ports with
             | Some (_, port) => companionUrl port
             | None => localCompanionUrl atMaximum
             end +:+ "/screenshot").
Proof.
  assert (H1 : submission "abc" <> Undefined) by discriminate.
  assert (H2 : submission "abc" <> Null) by discriminate.
  split; [exact H1|]. split; [exact H2|].
  exact (proj1 (requests_follow_the_adopted_port
                  silent unreachable (submission "abc") atMaximum H1 H2)).
Defined.

Section companion_messages.

Variables saveUserProfile processJobData processFormFields openSidePanel
  : value -> M state unit.
Variables (e : env) (c : companion).

Let handle :=
  handleMessage saveUserProfile processJobData processFormFields
    (handleFileUpload c) (takeScreenshot e c) openSidePanel e.

(** X11.  A [takeScreenshot] or [uploadFile] message is always answered
    with [success: true], whatever the companion does and even when it
    cannot be reached, and handling it changes nothing in the storage. *)
Theorem companion_failures_are_answered_with_success
    (m : message) (sd : sender) (s : state) (out : list response) :
  action m = Str "takeScreenshot" \/ action m = Str "uploadFile" ->
  exists s', handle m sd (s, out) = (Ok tt, (s', out ++ [Success]))
             /\ store s' = store s.
Proof.
  intros Hm. subst handle. unfold handleMessage.
  destruct Hm as [-> | ->];
    cbn [is_case strict_eq_string String.eqb Ascii.eqb Bool.eqb];
    unfold try_catch, lift, sendResponse, modify, mbind, M_bind; cbn [fst snd].
  - rewrite takeScreenshot_run. eexists. split; [reflexivity|].
    by destruct (nullish _), s.
  - rewrite handleFileUpload_run. eexists. split; [reflexivity|].
    by destruct (uploadFailure _ _ _), (nullish _), s.
Qed.

(** X12.  An [applicationSubmitted] message without data is answered
    with [success: false] and the error's message, and counts nothing:
    the worker is left exactly as it was. *)
Theorem malformed_report_counts_nothing
    (m : message) (sd : sender) (s : state) (out : list response) :
  action m = Str "applicationSubmitted" ->
  data m = Undefined \/ data m = Null ->
  exists error, handle m sd (s, out) = (Ok tt, (s, out ++ [Failure error])).
Proof.
  intros Ha Hd. subst handle. unfold handleMessage. rewrite Ha.
  cbn [is_case strict_eq_string String.eqb Ascii.eqb Bool.eqb].
  unfold try_catch, lift, sendResponse, modify, mbind, M_bind; cbn [fst snd].
  destruct Hd as [-> | ->]; cbn; by eexists.
Qed.

End companion_messages.

Lemma companion_failures_are_answered_with_success_witness :
  let m := {| action := Str "takeScreenshot";
              data := Obj [("stage", Str "manual")] |} in
  (action m = Str "takeScreenshot" \/ action m = Str "uploadFile")
  /\ exists s',
       handleMessage PageSpec.idle PageSpec.idle PageSpec.idle
         (handleFileUpload unreachable) (takeScreenshot silent unreachable)
         PageSpec.idle silent m PageSpec.fromPage (atMaximum, [])
       = (Ok tt, (s', [] ++ [Success]))
       /\ store s' = store atMaximum.
Proof.
  cbn zeta.
  assert (H : action {| action := Str "takeScreenshot";
                        data := Obj [("stage", Str "manual")] |}
              = Str "takeScreenshot"
              \/ action {| action := Str "takeScreenshot";
                           data := Obj [("stage", Str "manual")] |}
                 = Str "uploadFile") by (left; reflexivity).
  split; [exact H|].
  exact (companion_failures_are_answered_with_success
           PageSpec.idle PageSpec.idle PageSpec.idle PageSpec.idle
           silent unreachable _ PageSpec.fromPage atMaximum [] H).
Defined.

Lemma malformed_report_counts_nothing_witness :
  let m := {| action := Str "applicationSubmitted"; data := Undefined |} in
  action m = Str "applicationSubmitted"
  /\ (data m = Undefined \/ data m = Null)
  /\ exists error,
       handleMessage PageSpec.idle PageSpec.idle PageSpec.idle
         (handleFileUpload unreachable) (takeScreenshot silent unreachable)
         PageSpec.idle silent m PageSpec.fromPage (atMaximum, [])
       = (Ok tt, (atMaximum, [] ++ [Failure error])).
Proof.
  cbn zeta.
  assert (H1 : action {| action := Str "applicationSubmitted"; data := Undefined |}
               = Str "applicationSubmitted") by reflexivity.
  assert (H2 : data {| action := Str "applicationSubmitted"; data := Undefined |}
               = Undefined
               \/ data {| action := Str "applicationSubmitted"; data := Undefined |}
                  = Null) by (left; reflexivity).
  split; [exact H1|]. split; [exact H2|].
  exact (malformed_report_counts_nothing
           PageSpec.idle PageSpec.idle PageSpec.idle PageSpec.idle
           silent unreachable _ PageSpec.fromPage atMaximum [] H1 H2).
Defined.

(** *** Form analysis *)

Lemma json_fields_value (es : list (string * option ContentScript.field)) :
  json (ContentScript.fields_value es) = Obj (map encoded es).
Proof.
  unfold ContentScript.fields_value. cbn [json]. f_equal.
  induction es as [|[k [f|]] es IH]; cbn [map]; [done| |]; by rewrite IH.
Qed.

Lemma remove_dups_NoDup {A} `{EqDecision A} (l : list A) :
  NoDup l -> remove_dups l = l.
Proof.
  induction 1 as [|x l Hx _ IH]; [done|]. cbn.
  destruct (decide_rel elem_of x l); [done|]. by rewrite IH.
Qed.

Lemma assoc_None (k : string) (props : list (string * value)) :
  k ∉ map fst props -> assoc k props = None.
Proof.
  induction props as [|[k' v] props IH]; [done|]. cbn.
  intros [Hk Hin]%not_elem_of_cons. rewrite IH by done.
  by rewrite (proj2 (String.eqb_neq k k')).
Qed.

Lemma entries_NoDup (props : list (string * value)) :
  NoDup (map fst props) -> entries (Obj props) = props.
Proof.
  intros Hnd. unfold entries. rewrite remove_dups_NoDup by done.
  induction props as [|[k v] props IH]; [done|].
  cbn [map fst] in *. apply NoDup_cons in Hnd as [Hk Hnd].
  f_equal.
  - cbn. rewrite assoc_None by done. by rewrite String.eqb_refl.
  - rewrite <- IH at 2 by done. apply map_ext_in. intros k' Hin.
    cbn. f_equal.
    destruct (assoc k' props) eqn:Ha; [done|].
    exfalso. clear -Ha Hin. induction props as [|[k0 v0] props IH]; [done|].
    cbn in *. destruct (assoc k' props); [done|].
    destruct (String.eqb_spec k' k0); [done|]. destruct Hin; [congruence|auto].
Qed.

Lemma count_encoded (es : list (string * option ContentScript.field)) :
  length (List.filter (fun kv => truthy (snd kv)) (map encoded es))
  = length (PageSpec.descriptors es)
  /\ existsb (fun kv => truthy (snd kv)
                        && strict_eq_string (get (snd kv) "type") "file")
       (map encoded es)
     = existsb (fun f => String.eqb (ContentScript.field_type f) "file")
         (PageSpec.descriptors es).
Proof.
  unfold PageSpec.descriptors, omap.
  induction es as [|[k [f|]] es [IH1 IH2]]; [done| |]; cbn; by rewrite ?IH1, ?IH2.
Qed.

(** X13.  On the [formFields] object of a detection, as it arrives in
    the worker, [processFormFields] counts the descriptors: the
    complexity is [high] for more than five, the companion is required
    exactly when a descriptor has the type [file], and the estimated
    time is two per descriptor, and ten more with a file.  At most nine
    are counted, and the worker is left as it was. *)
Theorem processFormFields_counts_detected_fields
    (doc : list ContentScript.element) (s : state) :
  let found := PageSpec.descriptors (ContentScript.detect doc) in
  let n := Z.of_nat (length found) in
  let file :=
    existsb (fun f => String.eqb (ContentScript.field_type f) "file") found in
  processFormFields (json (ContentScript.fields_value (ContentScript.detect doc))) s
  = (Ok {| complexity := if 5 <? n then "high" else "low";
           requiresCompanion := file;
           estimatedTime := n * 2 + (if file then 10 else 0) |}, s)
  /\ n <= 9.
Proof.
  cbn zeta. split.
  - rewrite json_fields_value. unfold processFormFields.
    rewrite entries_NoDup.
    + destruct (count_encoded (ContentScript.detect doc)) as [-> ->]. done.
    + rewrite map_map. cbn [encoded fst]. apply (bool_decide_unpack _).
      by vm_compute.
  - assert (H : (length (PageSpec.descriptors (ContentScript.detect doc)) <= 9)%nat).
    { etrans; [apply descriptors_length|]. unfold ContentScript.detect.
      by rewrite length_map. }
    lia.
Qed.

(** *** The domain gate *)

(** X14.  The domain gate is closed under embedding: a URL that
    contains an allowed URL is allowed.  An empty whitelist allows
    nothing, and a whitelist with an empty entry allows every URL that
    is not empty. *)
Theorem domain_gate_is_closed_under_embedding
    (s : state) (u pre post : string) :
  (isWhitelistedDomain s (Some u) = true ->
   isWhitelistedDomain s (Some (pre +:+ u +:+ post)) = true)
  /\ (whitelist s = [] -> isWhitelistedDomain s (Some u) = false)
  /\ (In "" (whitelist s) -> u <> "" -> isWhitelistedDomain s (Some u) = true).
Proof.
  unfold isWhitelistedDomain. split; [|split].
  - destruct (String.eqb_spec u "") as [->|Hu]; [done|].
    destruct (String.eqb_spec (pre +:+ u +:+ post) "") as [He|_].
    { destruct pre; [|done]. rewrite append_nil in He. by destruct u. }
    rewrite !existsb_exists. intros (d & Hd & (a & b & ->)%includes_substring).
    exists d. split; [done|]. apply includes_substring.
    exists (pre +:+ a), (b +:+ post).
    clear. induction pre as [|c pre IH]; rewrite ?append_nil, ?append_cons.
    + induction a as [|c a IH]; rewrite ?append_nil, ?append_cons.
      * induction d as [|c d IH]; rewrite ?append_nil, ?append_cons; [done|].
        by rewrite IH.
      * by rewrite IH.
    + by rewrite IH.
  - intros ->. by destruct (String.eqb u "").
  - intros Hin Hu. rewrite (proj2 (String.eqb_neq u "")) by done.
    apply existsb_exists. exists "". split; [done|]. by destruct u.
Qed.

End more_worker_properties.

(** ** Further properties of the content script *)

Section more_page_properties.
Import ContentScript PageSpec PageMethods MoreSpec.

(** *** The job id of a URL *)

Lemma substring_all (s : string) : String.substring 0 (String.length s) s = s.
Proof. induction s as [|c s IH]; [done|]. cbn. by rewrite IH. Qed.

Lemma run_append (id post : string) :
  allAlnum id = true -> stops post = true -> run (id +:+ post) = id.
Proof.
  intros Hid Hpost. induction id as [|c id IH].
  - rewrite append_nil. destruct post as [|c post]; [done|]. cbn in *.
    by destruct (alnum c).
  - rewrite append_cons. cbn in *. apply andb_true_iff in Hid as [-> Hid].
    by rewrite IH.
Qed.

Lemma run_split (s : string) :
  exists post, s = run s +:+ post /\ allAlnum (run s) = true /\ stops post = true.
Proof.
  induction s as [|c s (post & Hs & Ha & Hp)].
  - by exists "".
  - cbn. destruct (alnum c) eqn:Hc.
    + exists post. rewrite append_cons, <- Hs. cbn. by rewrite Hc, Ha.
    + exists (String c s). cbn. by rewrite Hc.
Qed.

Lemma extractJobId_cons (c : ascii) (rest : string) :
  extractJobId (String c rest)
  = if String.prefix "jk=" (String c rest)
    then
      match run (String.substring 3 (String.length (String c rest) - 3)
                   (String c rest)) with
      | EmptyString => extractJobId rest
      | id => Some id
      end
    else extractJobId rest.
Proof. reflexivity. Qed.

Lemma after_jk (rest : string) :
  String.substring 3 (String.length ("jk=" +:+ rest) - 3) ("jk=" +:+ rest) = rest.
Proof.
  change (String.length ("jk=" +:+ rest) - 3)%nat
    with (String.length rest - 0)%nat.
  rewrite Nat.sub_0_r. apply substring_all.
Qed.

Lemma extractJobId_here (rest : string) :
  extractJobId ("jk=" +:+ rest)
  = match run rest with
    | EmptyString => extractJobId ("k=" +:+ rest)
    | id => Some id
    end.
Proof.
  change ("jk=" +:+ rest) with (String "j" ("k=" +:+ rest)) at 1.
  rewrite extractJobId_cons.
  change (String "j" ("k=" +:+ rest)) with ("jk=" +:+ rest).
  rewrite after_jk.
  by replace (String.prefix "jk=" ("jk=" +:+ rest)) with true
    by (symmetry; apply prefix_append; by exists rest).
Qed.

Lemma extractJobId_skip (c : ascii) (rest : string) :
  String.prefix "jk=" (String c rest) = false ->
  extractJobId (String c rest) = extractJobId rest.
Proof. intros H. by rewrite extractJobId_cons, H. Qed.

(** X15.  In a URL whose first [jk=] is followed by a run of letters
    and digits that is not empty, [extractJobId] returns that whole
    run, up to the first character that is neither. *)
Theorem extractJobId_finds_the_id (pre id post : string) :
  JS.includes pre "jk=" = false ->
  id <> "" -> allAlnum id = true -> stops post = true ->
  extractJobId (pre +:+ "jk=" +:+ id +:+ post) = Some id.
Proof.
  intros Hpre Hid Ha Hp. induction pre as [|c pre IH].
  - rewrite append_nil, extractJobId_here, run_append by done. by destruct id.
  - rewrite includes_cons in Hpre. apply orb_false_iff in Hpre as [Hhere Hpre].
    rewrite append_cons, extractJobId_skip; [by apply IH|].
    destruct (String.prefix "jk=" (String c (pre +:+ "jk=" +:+ id +:+ post))) eqn:H;
      [|done].
    exfalso. apply prefix_append in H as [tail H].
    rewrite !append_cons, append_nil in H. injection H as -> H.
    destruct pre as [|c1 pre]; [by rewrite ?append_nil in H|].
    rewrite ?append_cons in H. injection H as -> H.
    destruct pre as [|c2 pre]; [by rewrite ?append_nil in H|].
    rewrite ?append_cons in H. injection H as -> H.
    assert (String.prefix "jk=" (String "j" (String "k" (String "=" pre))) = true)
      by (apply prefix_append; by exists pre).
    congruence.
Qed.

Lemma extractJobId_finds_the_id_witness :
  JS.includes "https://ca.indeed.com/viewjob?" "jk=" = false
  /\ allAlnum "abc123DEF" = true /\ stops "&from=serp" = true
  /\ extractJobId ("https://ca.indeed.com/viewjob?" +:+ "jk=" +:+ "abc123DEF"
                     +:+ "&from=serp")
     = Some "abc123DEF".
Proof.
  assert (H1 : JS.includes "https://ca.indeed.com/viewjob?" "jk=" = false)
    by reflexivity.
  assert (H2 : "abc123DEF" <> "") by discriminate.
  assert (H3 : allAlnum "abc123DEF" = true) by reflexivity.
  assert (H4 : stops "&from=serp" = true) by reflexivity.
  split; [exact H1|]. split; [exact H3|]. split; [exact H4|].
  exact (extractJobId_finds_the_id "https://ca.indeed.com/viewjob?" "abc123DEF"
           "&from=serp" H1 H2 H3 H4).
Defined.

(** X16.  What [extractJobId] returns is never empty, consists of
    letters and digits only, and stands in the URL right after a [jk=],
    followed by no further letter or digit. *)
Theorem extractJobId_returns_an_id (url id : string) :
  extractJobId url = Some id ->
  id <> "" /\ allAlnum id = true
  /\ exists pre post, url = pre +:+ "jk=" +:+ id +:+ post /\ stops post = true.
Proof.
  induction url as [|c url IH]; [done|]. rewrite extractJobId_cons.
  destruct (String.prefix "jk=" (String c url)) eqn:H.
  - apply prefix_append in H as [rest H]. rewrite H, after_jk.
    destruct (run rest) as [|c0 r] eqn:Hrun.
    + intros (? & ? & pre & post & -> & ?)%IH. repeat split; try done.
      by exists (String c pre), post.
    + intros [= <-]. destruct (run_split rest) as (post & Hs & Ha & Hp).
      rewrite Hrun in *. split; [done|]. split; [done|].
      exists "", post. by rewrite append_nil, <- Hs.
  - intros (? & ? & pre & post & -> & ?)%IH. repeat split; try done.
    by exists (String c pre), post.
Qed.

Lemma extractJobId_returns_an_id_witness :
  extractJobId "/viewjob?jk=&jk=9f3a-x" = Some "9f3a"
  /\ allAlnum "9f3a" = true.
Proof.
  assert (H : extractJobId "/viewjob?jk=&jk=9f3a-x" = Some "9f3a") by reflexivity.
  split; [exact H|].
  exact (proj1 (proj2 (extractJobId_returns_an_id "/viewjob?jk=&jk=9f3a-x" "9f3a" H))).
Defined.

(** *** Start-up *)

Section pages.

Variable handleJobDetailPage : M state unit.

(** X17.  On a job listing page, a URL with [/jobs?] and neither
    [/viewjob?] nor [/apply?], [init] throws after it has asked for the
    profile and announced the script: the class has no method
    [handleJobListingPage]. *)
Theorem init_throws_on_a_job_listing_page (url : string) (s : state) :
  JS.includes url "/viewjob?" = false ->
  JS.includes url "/apply?" = false ->
  JS.includes url "/jobs?" = true ->
  init handleJobDetailPage url s
  = (Throw "this.handleJobListingPage is not a function",
     with_trace (trace s ++ [SendToBackground "getUserProfile" (JS.Obj []);
                             SendToBackground "contentScriptReady" (JS.Obj [])])
       s).
Proof.
  intros Hv Ha Hj. unfold init, detectPageType. rewrite Hv, Ha, Hj.
  unfold loadUserProfile, injectSidePanel, sendToBackground, emit, modify, throw,
    mbind, M_bind.
  destruct s; cbn. by rewrite <- app_assoc.
Qed.

End pages.

Lemma init_throws_on_a_job_listing_page_witness :
  JS.includes "https://ca.indeed.com/jobs?q=developer" "/jobs?" = true
  /\ fst (init (mret tt) "https://ca.indeed.com/jobs?q=developer" freshPage)
     = Throw "this.handleJobListingPage is not a function".
Proof.
  assert (H1 : JS.includes "https://ca.indeed.com/jobs?q=developer" "/viewjob?" = false)
    by reflexivity.
  assert (H2 : JS.includes "https://ca.indeed.com/jobs?q=developer" "/apply?" = false)
    by reflexivity.
  assert (H3 : JS.includes "https://ca.indeed.com/jobs?q=developer" "/jobs?" = true)
    by reflexivity.
  split; [exact H3|].
  exact (f_equal fst
           (init_throws_on_a_job_listing_page (mret tt)
              "https://ca.indeed.com/jobs?q=developer" freshPage H1 H2 H3)).
Defined.

(** *** Typing *)

Lemma typeChar_run (i : nat) (c : ascii) (rest : string) (s : state) :
  typeChar i (String c rest) s
  = (Ok tt,
     with_timers (timers s ++ [TypeChar i rest])
       (with_trace
          (trace s ++ [KeyboardEvent i "keydown" (String c "");
                       KeyboardEvent i "keypress" (String c "");
                       DispatchEvent i "input";
                       KeyboardEvent i "keyup" (String c "")])
          (with_document
             (alter (fun e => set_value (value e +:+ String c "") e) i (document s))
             s))).
Proof.
  unfold typeChar, update, emit, setTimeout, modify, mbind, M_bind.
  destruct s; cbn. by rewrite <- !app_assoc.
Qed.

Lemma append_assoc (a b c : string) : (a +:+ b) +:+ c = a +:+ b +:+ c.
Proof. induction a as [|x a IH]; [done|]. by rewrite !append_cons, IH. Qed.

Lemma settle_typing (iso : string) (i : nat) (chars : string) (s : state)
    (old : string) :
  timers s = [TypeChar i chars] ->
  valueAt s i = Some old ->
  let r := settle iso (S (String.length chars)) s in
  fst r = Ok tt
  /\ timers (snd r) = []
  /\ valueAt (snd r) i = Some (old +:+ chars)
  /\ (forall j, j <> i -> document (snd r) !! j = document s !! j).
Proof.
  revert s old. induction chars as [|c chars IH]; intros s old Ht Hv.
  - cbn zeta. cbn [String.length settle]. unfold fire, mbind, M_bind, gets. rewrite Ht.
    unfold modify, runTimer, typeChar, mret, M_ret. cbn [fst snd].
    destruct s; cbn in *. by rewrite append_empty_r.
  - cbn zeta. cbn [String.length].
    set (s1 := with_timers [TypeChar i chars]
           (with_trace
              (trace s ++ [KeyboardEvent i "keydown" (String c "");
                           KeyboardEvent i "keypress" (String c "");
                           DispatchEvent i "input";
                           KeyboardEvent i "keyup" (String c "")])
              (with_document
                 (alter (fun e => set_value (value e +:+ String c "") e) i (document s))
                 s))).
    assert (Hfire : fire iso s = (Ok tt, s1)).
    { unfold fire, mbind, M_bind, gets. rewrite Ht. unfold modify, runTimer.
      rewrite typeChar_run. by destruct s. }
    assert (Hrun : settle iso (S (S (String.length chars))) s
                   = settle iso (S (String.length chars)) s1).
    { change (settle iso (S (S (String.length chars))))
        with (fire iso;; settle iso (S (String.length chars))).
      unfold mbind, M_bind. by rewrite Hfire. }
    rewrite Hrun.
    destruct (IH s1 (old +:+ String c "")) as (H1 & H2 & H3 & H4).
    { by destruct s. }
    { unfold valueAt in *. subst s1. destruct s; cbn in *.
      rewrite list_lookup_alter_eq. by destruct (document0 !! i); simplify_eq/=. }
    split; [done|]. split; [done|]. split.
    + rewrite H3, append_assoc. by rewrite append_cons, append_nil.
    + intros j Hj. rewrite H4 by done. subst s1. destruct s; cbn.
      by rewrite list_lookup_alter_ne.
Qed.

Lemma fillField_typed (i : nat) (e : element) (c : ascii) (rest : string) (s : state) :
  document s !! i = Some e -> typed e = true ->
  fillField i (JS.Str (String c rest)) s = (Ok tt, firstTyped i c rest s).
Proof.
  intros He [Hf Hs]%andb_true_iff.
  apply negb_true_iff in Hf, Hs.
  unfold fillField, mbind, M_bind, gets. rewrite He, Hf.
  unfold update, emit, modify. rewrite Hs. unfold simulateTyping.
  rewrite typeChar_run. destruct s.
  cbv beta iota delta [firstTyped with_timers with_trace with_document document
    bodyText controls submitDisabled status formFields userProfile jobData
    timers trace fst snd].
  f_equal. f_equal.
  - apply list_eq. intros j. rewrite !list_lookup_alter.
    destruct (decide (i = j)) as [<-|]; [|done].
    rewrite decide_True by done. by destruct (document0 !! i).
  - by rewrite <- !app_assoc.
Qed.

Lemma accepts_typed (e : element) (text : string) :
  accepts e text = true -> typed e = true.
Proof.
  unfold accepts, typed. intros H.
  destruct (String.eqb_spec (type e) "file") as [Hf|_];
    [by rewrite Hf in H|].
  destruct (String.eqb_spec (type e) "select-one") as [Hs|_];
    [by rewrite Hs in H|].
  done.
Qed.

(** X18.  When [fillField] returns from typing a text into a text
    control that keeps it as written, the element holds the first
    character only, and [input], [change] and [blur] have already been
    dispatched; the rest of the text waits in a timer. *)
Theorem change_is_dispatched_after_the_first_character
    (i : nat) (e : element) (c : ascii) (rest : string) (s : state) :
  document s !! i = Some e -> accepts e (String c rest) = true ->
  let r := fillField i (JS.Str (String c rest)) s in
  fst r = Ok tt
  /\ valueAt (snd r) i = Some (String c "")
  /\ timers (snd r) = timers s ++ [TypeChar i rest]
  /\ exists before,
       trace (snd r)
       = before ++ [DispatchEvent i "input"; DispatchEvent i "change";
                    DispatchEvent i "blur"].
Proof.
  intros He Ht%accepts_typed. cbn zeta. rewrite (fillField_typed i e) by done.
  cbn [fst snd].
  split; [done|]. split.
  { unfold valueAt, firstTyped. destruct s; cbn in *.
    by rewrite list_lookup_alter_eq, He. }
  split; [by destruct s|].
  eexists (trace s ++ [_; _; _; _; _]). unfold firstTyped. destruct s; cbn.
  by rewrite <- app_assoc.
Qed.

Lemma change_is_dispatched_after_the_first_character_witness :
  document permitPage !! 0%nat = Some telephone
  /\ accepts telephone "5551234" = true
  /\ valueAt (snd (fillField 0 (JS.Str "5551234") permitPage)) 0 = Some "5".
Proof.
  assert (H1 : document permitPage !! 0%nat = Some telephone) by reflexivity.
  assert (H2 : accepts telephone "5551234" = true) by reflexivity.
  split; [exact H1|]. split; [exact H2|].
  exact (proj1 (proj2 (change_is_dispatched_after_the_first_character
                         0 telephone "5" "551234" permitPage H1 H2))).
Defined.

(** X19.  The timers complete the typing into a text control that
    keeps the text as written: started on a page with no pending timer,
    after one more timer than the text has characters left the element
    holds the whole text, no timer is pending, and no other element has
    changed. *)
Theorem typing_completes_through_timers
    (iso : string) (i : nat) (e : element) (c : ascii) (rest : string) (s : state) :
  document s !! i = Some e -> accepts e (String c rest) = true ->
  timers s = [] ->
  let s1 := snd (fillField i (JS.Str (String c rest)) s) in
  let r := settle iso (S (String.length rest)) s1 in
  fst r = Ok tt
  /\ timers (snd r) = []
  /\ valueAt (snd r) i = Some (String c rest)
  /\ forall j, j <> i -> document (snd r) !! j = document s !! j.
Proof.
  intros He Ht%accepts_typed Hs. cbn zeta. rewrite (fillField_typed i e) by done.
  cbn [snd].
  destruct (settle_typing iso i rest (firstTyped i c rest s) (String c ""))
    as (H1 & H2 & H3 & H4).
  { unfold firstTyped. destruct s; cbn in *. by rewrite Hs. }
  { unfold valueAt, firstTyped. destruct s; cbn in *.
    by rewrite list_lookup_alter_eq, He. }
  split; [done|]. split; [done|]. split; [done|].
  intros j Hj. rewrite H4 by done. unfold firstTyped. destruct s; cbn.
  by rewrite list_lookup_alter_ne.
Qed.

Lemma typing_completes_through_timers_witness :
  document permitPage !! 0%nat = Some telephone
  /\ accepts telephone "5551234" = true
  /\ timers permitPage = []
  /\ valueAt (snd (settle "2023-11-14T10:00:00.000Z" 7
                     (snd (fillField 0 (JS.Str "5551234") permitPage)))) 0
     = Some "5551234".
Proof.
  assert (H1 : document permitPage !! 0%nat = Some telephone) by reflexivity.
  assert (H2 : accepts telephone "5551234" = true) by reflexivity.
  assert (H3 : timers permitPage = []) by reflexivity.
  split; [exact H1|]. split; [exact H2|]. split; [exact H3|].
  exact (proj1 (proj2 (proj2 (typing_completes_through_timers
                                "2023-11-14T10:00:00.000Z" 0 telephone "5" "551234"
                                permitPage H1 H2 H3)))).
Defined.

(** X20.  On a single-choice select [fillField] sets no timer and types
    nothing: the element takes the value of the first option whose
    value is the given value or whose text contains it, and is left
    empty when there is none. *)
Theorem select_takes_the_first_matching_option_or_none
    (i : nat) (e : element) (v : JS.value) (s : state) :
  document s !! i = Some e -> type e = "select-one" ->
  let r := fillField i v s in
  let choice :=
    List.find (fun option : string * string =>
                 JS.strict_eq_string v (fst option)
                 || JS.includes (snd option) (JS.to_string v)) (options e) in
  fst r = Ok tt
  /\ valueAt (snd r) i = Some (match choice with
                               | Some option => fst option
                               | None => ""
                               end)
  /\ timers (snd r) = timers s
  /\ trace (snd r)
     = trace s ++ [Focus i; DispatchEvent i "input"; DispatchEvent i "change";
                   DispatchEvent i "blur"].
Proof.
  intros He Ht. cbn zeta. unfold fillField, mbind, M_bind, gets. rewrite He, Ht.
  cbn [String.eqb Ascii.eqb Bool.eqb]. unfold update, emit, modify.
  destruct (List.find _ (options e)) as [option|]; unfold modify, mret, M_ret;
    unfold valueAt; destruct s; cbn in *;
    rewrite ?list_lookup_alter_eq, He, <- ?app_assoc; by repeat split.
Qed.

Lemma select_takes_the_first_matching_option_or_none_witness :
  document freshPage !! 1%nat = Some country /\ type country = "select-one"
  /\ fst (fillField 1 (JS.Str "Permanent") freshPage) = Ok tt.
Proof.
  assert (H1 : document freshPage !! 1%nat = Some country) by reflexivity.
  assert (H2 : type country = "select-one") by reflexivity.
  split; [exact H1|]. split; [exact H2|].
  exact (proj1 (select_takes_the_first_matching_option_or_none
                  1 country (JS.Str "Permanent") freshPage H1 H2)).
Defined.

(** *** Auto-fill *)

Ltac open_page :=
  cbv beta iota delta
    [with_timers with_trace with_document with_status with_controls
     with_formFields document bodyText controls submitDisabled status
     formFields userProfile jobData timers trace fst snd framed].

Lemma fillField_framed (i : nat) (v : JS.value) (s : state) :
  framed i s (snd (fillField i v s)).
Proof.
  unfold fillField, mbind, M_bind, gets.
  destruct (document s !! i) as [e|]; [|by repeat split].
  destruct (String.eqb (type e) "file").
  { unfold sendToBackground, emit, modify. destruct s; by repeat split. }
  unfold update, emit, modify.
  destruct (String.eqb (type e) "select-one").
  { destruct (List.find _ _); unfold modify, mret, M_ret;
      destruct s; open_page; repeat split; try done; intros j Hj;
      by rewrite ?list_lookup_alter_ne by congruence. }
  unfold simulateTyping, typeChar, throw.
  destruct v as [| | | |[|c t]|];
    unfold update, emit, setTimeout, modify, mbind, M_bind, mret, M_ret;
    destruct s; open_page; repeat split; try done; intros j Hj;
    by rewrite ?list_lookup_alter_ne by congruence.
Qed.

Lemma getFieldValue_pure (key : string) (s : state) :
  snd (getFieldValue key s) = s.
Proof.
  unfold getFieldValue.
  repeat (destruct (String.eqb key _);
          [unfold read, mbind, M_bind, gets; by destruct (userProfile s)|]).
  destruct (String.eqb key _); [|done].
  unfold generateCoverLetter, mbind, M_bind, gets, mret, M_ret.
  by destruct (jobData s).
Qed.

Lemma framedAll_refl (entries : list (string * option field)) (s : state) :
  framedAll entries s s.
Proof. by repeat split. Qed.

Lemma fillEntry_framed (acc : Z * list string) (entry : string * option field)
    (s : state) :
  exists acc', fst (fillEntry acc entry s) = Ok acc'
  /\ framedAll [entry] s (snd (fillEntry acc entry s)).
Proof.
  unfold fillEntry. destruct entry as [key [f|]]; cbn [fst snd].
  2: { exists acc. split; [done|]. apply framedAll_refl. }
  unfold try_catch, mbind, M_bind.
  pose proof (getFieldValue_pure key s) as Hpure.
  destruct (getFieldValue key s) as [[v|m] s0]; cbn in Hpure; subst s0.
  2: { eexists. split; [done|]. apply framedAll_refl. }
  destruct (JS.truthy v).
  2: { eexists. split; [done|]. apply framedAll_refl. }
  pose proof (fillField_framed (field_element f) v s) as Hf.
  destruct (fillField (field_element f) v s) as [[[]|m] s']; cbn in *;
    (eexists; split; [done|]);
    destruct Hf as (?&?&?&?&?&?&?&Hd); repeat split; try done;
    intros j Hj; apply Hd; intros ->; apply Hj; by left.
Qed.

Lemma descriptors_cons (entry : string * option field)
    (entries : list (string * option field)) :
  descriptors (entry :: entries) = descriptors [entry] ++ descriptors entries.
Proof. by destruct entry as [k [f|]]. Qed.

Lemma fillEntries_framed (entries : list (string * option field))
    (acc : Z * list string) (s : state) :
  exists acc', fst (fillEntries acc entries s) = Ok acc'
  /\ framedAll entries s (snd (fillEntries acc entries s)).
Proof.
  revert acc s. induction entries as [|entry entries IH]; intros acc s.
  - exists acc. split; [done|]. apply framedAll_refl.
  - cbn [fillEntries]. unfold mbind, M_bind.
    destruct (fillEntry_framed acc entry s) as (acc1 & H1 & F1).
    destruct (fillEntry acc entry s) as [r s1]. cbn in H1, F1. subst r.
    destruct (IH acc1 s1) as (acc2 & H2 & F2). exists acc2. split; [done|].
    destruct F1 as (?&?&?&?&?&?&?&D1), F2 as (?&?&?&?&?&?&?&D2).
    repeat split; try congruence. intros j Hj.
    rewrite (descriptors_cons entry entries), map_app in Hj.
    apply not_elem_of_app in Hj as [Hj1 Hj2]. by rewrite D2, D1.
Qed.

Lemma executeAutoFill_idle (s : state) :
  formFields s = None \/ userProfile s = None ->
  executeAutoFill s
  = (Ok tt,
     if controls s
     then with_status (Some ("Missing form fields or user profile", "error")) s
     else s).
Proof.
  intros H. unfold executeAutoFill, mbind, M_bind, gets, showStatus, modify.
  destruct H as [-> | ->]; [done|]. by destruct (formFields s).
Qed.

Lemma executeAutoFill_run (s s1 : state) (entries : list (string * option field))
    (p : Profile) (filledCount : Z) (errors : list string) :
  formFields s = Some entries -> userProfile s = Some p ->
  fillEntries (0, []) entries s = (Ok (filledCount, errors), s1) ->
  executeAutoFill s
  = match errors with
    | _ :: _ =>
        (Ok tt,
         if controls s1
         then with_status
                (Some ("Filled " +:+ JS.Z_to_string filledCount +:+ " fields with "
                       +:+ JS.Z_to_string (Z.of_nat (length errors)) +:+ " errors",
                       "warning")) s1
         else s1)
    | [] =>
        if controls s1
        then (Ok tt,
              with_controls true false
                (with_status
                   (Some ("Successfully filled " +:+ JS.Z_to_string filledCount
                          +:+ " fields", "success")) s1))
        else (Throw "Cannot set properties of null (setting 'disabled')", s1)
    end.
Proof.
  intros Hf Hp Hrun. unfold executeAutoFill, mbind, M_bind, gets.
  rewrite Hf, Hp, Hrun. cbn [fst snd].
  destruct errors as [|err errors]; cbn [length Nat.ltb Nat.leb].
  - unfold showStatus, modify, throw. by destruct s1 as [? ? [|] ? ? ? ? ? ? ?].
  - unfold showStatus, modify. by destruct (controls s1).
Qed.

(** X21.  [executeAutoFill] touches only the elements that detection
    found: every other element of the page is left as it was, and so
    are the profile, the job data and the detected fields themselves. *)
Theorem executeAutoFill_touches_only_detected_fields (s : state) (j : nat) :
  (forall entries, formFields s = Some entries ->
     j ∉ map field_element (descriptors entries)) ->
  let s' := snd (executeAutoFill s) in
  document s' !! j = document s !! j
  /\ userProfile s' = userProfile s
  /\ jobData s' = jobData s
  /\ formFields s' = formFields s.
Proof.
  intros Hj. cbn zeta.
  destruct (formFields s) as [entries|] eqn:Hf.
  2: { rewrite executeAutoFill_idle by by left. cbn [snd].
       by destruct (controls s), s. }
  destruct (userProfile s) as [p|] eqn:Hp.
  2: { rewrite executeAutoFill_idle by by right. cbn [snd].
       by destruct (controls s), s. }
  destruct (fillEntries_framed entries (0, []) s) as ([c errs] & Hok & F).
  destruct (fillEntries (0, []) entries s) as [r s1] eqn:Hrun.
  cbn in Hok, F. subst r.
  rewrite (executeAutoFill_run s s1 entries p c errs) by done.
  destruct F as (Hb & Hc & Hd & Hst & Hff & Hup & Hjd & Hdoc).
  specialize (Hdoc j (Hj entries eq_refl)).
  destruct errs, (controls s1); cbn [snd]; destruct s1; cbn in *;
    repeat split; congruence.
Qed.

Lemma executeAutoFill_touches_only_detected_fields_witness :
  (forall entries, formFields permitPage = Some entries ->
     2%nat ∉ map field_element (descriptors entries))
  /\ document (snd (executeAutoFill permitPage)) !! 2%nat = Some submitButton
  /\ valueAt (snd (executeAutoFill permitPage)) 0 = Some "5".
Proof.
  assert (H : forall entries, formFields permitPage = Some entries ->
                2%nat ∉ map field_element (descriptors entries)).
  { intros entries [= <-]. apply (bool_decide_unpack _). vm_compute. exact I. }
  split; [exact H|]. split; [|reflexivity].
  exact (proj1 (executeAutoFill_touches_only_detected_fields permitPage 2 H)).
Defined.

(** X22.  Without detected fields or without a profile
    [executeAutoFill] fills nothing: it returns normally, the document
    is untouched, no event is dispatched, no timer is set and the
    submit control stays as it was.  Without the control panel the
    script is left exactly as it was. *)
Theorem executeAutoFill_without_profile_does_nothing (s : state) :
  formFields s = None \/ userProfile s = None ->
  let r := executeAutoFill s in
  fst r = Ok tt
  /\ document (snd r) = document s
  /\ trace (snd r) = trace s
  /\ timers (snd r) = timers s
  /\ submitDisabled (snd r) = submitDisabled s
  /\ (controls s = false -> snd r = s).
Proof.
  intros H. cbn zeta. rewrite executeAutoFill_idle by done. cbn [fst snd].
  destruct (controls s) eqn:Hc; destruct s; by repeat split.
Qed.

Lemma executeAutoFill_without_profile_does_nothing_witness :
  (formFields freshPage = None \/ userProfile freshPage = None)
  /\ fst (executeAutoFill freshPage) = Ok tt.
Proof.
  assert (H : formFields freshPage = None \/ userProfile freshPage = None)
    by (left; reflexivity).
  split; [exact H|].
  exact (proj1 (executeAutoFill_without_profile_does_nothing freshPage H)).
Defined.

(** X23.  With fields, a profile and the control panel in place,
    [executeAutoFill] returns normally and enables the submit control
    exactly when no field raised an error; with an error the control
    stays as it was and the status is a warning that counts the
    errors. *)
Theorem submit_is_enabled_only_without_errors
    (s : state) (entries : list (string * option field)) :
  formFields s = Some entries -> userProfile s <> None -> controls s = true ->
  exists filledCount errors s1,
    fillEntries (0, []) entries s = (Ok (filledCount, errors), s1)
    /\ fst (executeAutoFill s) = Ok tt
    /\ submitDisabled (snd (executeAutoFill s))
       = match errors with [] => false | _ => submitDisabled s end
    /\ status (snd (executeAutoFill s))
       = Some (match errors with
               | [] => ("Successfully filled " +:+ JS.Z_to_string filledCount
                        +:+ " fields", "success")
               | _ => ("Filled " +:+ JS.Z_to_string filledCount +:+ " fields with "
                       +:+ JS.Z_to_string (Z.of_nat (length errors)) +:+ " errors",
                       "warning")
               end).
Proof.
  intros Hf Hp Hc. destruct (userProfile s) as [p|] eqn:Hprofile; [|done].
  destruct (fillEntries_framed entries (0, []) s) as ([c errs] & Hok & F).
  destruct (fillEntries (0, []) entries s) as [r s1] eqn:Hrun.
  cbn in Hok, F. subst r. exists c, errs, s1. split; [done|].
  rewrite (executeAutoFill_run s s1 entries p c errs) by done.
  destruct F as (Hb & Hc1 & Hd & Hst & Hff & Hup & Hjd & Hdoc).
  rewrite Hc1, Hc. destruct errs; cbn [fst snd]; destruct s1; cbn in *;
    repeat split; congruence.
Qed.

Lemma submit_is_enabled_only_without_errors_witness :
  formFields applyPage = Some (detect [telephone; submitButton])
  /\ userProfile applyPage <> None /\ controls applyPage = true
  /\ exists filledCount errors s1,
       fillEntries (0, []) (detect [telephone; submitButton]) applyPage
       = (Ok (filledCount, errors), s1)
       /\ fst (executeAutoFill applyPage) = Ok tt
       /\ submitDisabled (snd (executeAutoFill applyPage))
          = match errors with [] => false | _ => submitDisabled applyPage end
       /\ status (snd (executeAutoFill applyPage))
          = Some (match errors with
                  | [] => ("Successfully filled " +:+ JS.Z_to_string filledCount
                           +:+ " fields", "success")
                  | _ => ("Filled " +:+ JS.Z_to_string filledCount
                          +:+ " fields with "
                          +:+ JS.Z_to_string (Z.of_nat (length errors))
                          +:+ " errors", "warning")
                  end).
Proof.
  assert (H1 : formFields applyPage = Some (detect [telephone; submitButton]))
    by reflexivity.
  assert (H2 : userProfile applyPage <> None) by discriminate.
  assert (H3 : controls applyPage = true) by reflexivity.
  split; [exact H1|]. split; [exact H2|]. split; [exact H3|].
  exact (submit_is_enabled_only_without_errors applyPage _ H1 H2 H3).
Defined.

(** X24.  Auto-fill never fills the resume field: no profile property
    is read for the key [resume], so the entry is passed over without
    an upload request, a count or an error.  The cover letter is passed
    over in the same way while no job has been read. *)
Theorem resume_and_cover_letter_are_skipped
    (acc : Z * list string) (f : field) (s : state) :
  userProfile s <> None ->
  fillEntry acc ("resume", Some f) s = (Ok acc, s)
  /\ (jobData s = None -> fillEntry acc ("coverLetter", Some f) s = (Ok acc, s)).
Proof.
  intros Hp. destruct (userProfile s) as [p|] eqn:Hprofile; [|done].
  destruct acc as [c errs]. split.
  - unfold fillEntry, try_catch, mbind, M_bind. by cbn.
  - intros Hj. unfold fillEntry, try_catch, mbind, M_bind. cbn.
    unfold generateCoverLetter, mbind, M_bind, gets. by rewrite Hj.
Qed.

Lemma resume_and_cover_letter_are_skipped_witness :
  let upload :=
    {| field_element := 0%nat;
       field_selector := input [Equals "type" "file"; Contains "accept" "pdf"];
       field_type := "file"; field_required := true |} in
  userProfile readyPage <> None
  /\ fillEntry (0, []) ("resume", Some upload) readyPage = (Ok (0, []), readyPage).
Proof.
  cbn zeta.
  assert (H : userProfile readyPage <> None) by discriminate.
  split; [exact H|].
  exact (proj1 (resume_and_cover_letter_are_skipped (0, []) _ readyPage H)).
Defined.

(** *** After the submission *)

Lemma toLowerCase_append (a b : string) :
  JS.toLowerCase (a +:+ b) = JS.toLowerCase a +:+ JS.toLowerCase b.
Proof.
  induction a as [|c a IH]; [done|]. rewrite append_cons. cbn [JS.toLowerCase].
  by rewrite IH, append_cons.
Qed.

(** X25.  Success is recognised in any letter case and anywhere in the
    page: when the page text contains an indicator up to case,
    [checkSubmissionResult] reports the application to the worker, and
    shows the success status when the control panel is there. *)
Theorem success_is_recognised_in_any_case
    (iso indicator pre mid post : string) (s : state) :
  In indicator successIndicators ->
  bodyText s = pre +:+ mid +:+ post ->
  JS.toLowerCase mid = JS.toLowerCase indicator ->
  let r := checkSubmissionResult iso s in
  fst r = Ok tt
  /\ trace (snd r) = trace s ++ [SendToBackground "applicationSubmitted" (report s iso)]
  /\ (controls s = true ->
      status (snd r) = Some ("Application submitted successfully!", "success")).
Proof.
  intros Hin Hb Hm.
  assert (Hs : showsSuccess s = true).
  { unfold showsSuccess. apply existsb_exists. exists indicator. split; [done|].
    apply includes_substring. rewrite Hb, !toLowerCase_append, Hm. eauto. }
  cbn zeta. split; [|split].
  - unfold checkSubmissionResult, mbind, M_bind, gets. unfold showsSuccess in Hs.
    by rewrite Hs.
  - by apply checkSubmissionResult_success.
  - intros Hc. unfold checkSubmissionResult, mbind, M_bind, gets.
    unfold showsSuccess in Hs. rewrite Hs.
    unfold sendToBackground, emit, showStatus, modify. cbn. by rewrite Hc.
Qed.

Lemma success_is_recognised_in_any_case_witness :
  In "Thank you" successIndicators
  /\ bodyText readyPage = "" +:+ "THANK YOU" +:+ " for applying"
  /\ JS.toLowerCase "THANK YOU" = JS.toLowerCase "Thank you"
  /\ fst (checkSubmissionResult "2023-11-14T10:00:00.000Z" readyPage) = Ok tt.
Proof.
  assert (H1 : In "Thank you" successIndicators) by (right; left; reflexivity).
  assert (H2 : bodyText readyPage = "" +:+ "THANK YOU" +:+ " for applying")
    by reflexivity.
  assert (H3 : JS.toLowerCase "THANK YOU" = JS.toLowerCase "Thank you")
    by reflexivity.
  split; [exact H1|]. split; [exact H2|]. split; [exact H3|].
  exact (proj1 (success_is_recognised_in_any_case
                  "2023-11-14T10:00:00.000Z" "Thank you" "" "THANK YOU"
                  " for applying" readyPage H1 H2 H3)).
Defined.

(** *** The application page *)

(** X26.  On an application page opened before a profile has arrived,
    the script detects the fields, reports them and asks for the
    profile, but creates no control panel; an auto-fill started then
    changes nothing. *)
Theorem application_page_without_profile_stays_passive (s : state) :
  userProfile s = None -> controls s = false ->
  let s1 := snd (handleApplicationPage s) in
  let r := executeAutoFill s1 in
  fst (handleApplicationPage s) = Ok tt
  /\ formFields s1 = Some (detect (document s))
  /\ controls s1 = false
  /\ trace s1
     = trace s ++ [SendToBackground "formFieldsDetected"
                     (fields_value (detect (document s)));
                   SendToBackground "getUserProfile" (JS.Obj [])]
  /\ r = (Ok tt, s1).
Proof.
  intros Hp Hc. cbn zeta.
  assert (Hrun : handleApplicationPage s
    = (Ok tt,
       with_trace
         (trace s ++ [SendToBackground "formFieldsDetected"
                        (fields_value (detect (document s)));
                      SendToBackground "getUserProfile" (JS.Obj [])])
         (with_document (highlightAll (detect (document s)) (document s))
            (with_formFields (Some (detect (document s))) s)))).
  { unfold handleApplicationPage, mbind, M_bind. rewrite detectFormFields_run.
    unfold setupAutoFill, mbind, M_bind, gets.
    cbn [userProfile with_trace with_document with_formFields].
    rewrite Hp. unfold sendToBackground, emit, modify. destruct s. cbn.
    by rewrite <- app_assoc. }
  rewrite Hrun. cbn [fst snd]. split; [done|]. split; [by destruct s|].
  split; [by destruct s|]. split; [by destruct s|].
  rewrite executeAutoFill_idle by (right; by destruct s).
  destruct s; cbn in *. by rewrite Hc.
Qed.

Lemma application_page_without_profile_stays_passive_witness :
  userProfile freshPage = None /\ controls freshPage = false
  /\ executeAutoFill (snd (handleApplicationPage freshPage))
     = (Ok tt, snd (handleApplicationPage freshPage)).
Proof.
  assert (H1 : userProfile freshPage = None) by reflexivity.
  assert (H2 : controls freshPage = false) by reflexivity.
  split; [exact H1|]. split; [exact H2|].
  exact (proj2 (proj2 (proj2 (proj2
           (application_page_without_profile_stays_passive freshPage H1 H2))))).
Defined.

End more_page_properties.
